(** * supabase-core-python: the retry executor and the pagination helper

    A shallow embedding of
      - [src/utils/retry.py]          ([RetryConfig], [with_retry])
      - [src/database/pagination.py]  ([PaginationParams], [PaginatedResponse],
                                       [paginate], [parse_pagination_params])
      - [src/utils/error_handler.py]  ([normalize_error], [is_error_code],
                                       [get_user_friendly_message])
      - [src/utils/cache.py]          ([QueryCache])
      - [src/database/rls_helpers.py] ([get_current_user_role], [has_role])
    Python integers are unbounded and are modelled by [Z]; [//] on integers is
    floor division, which is [Z.div] for a divisor other than zero.  Effects
    (calling the operation, sleeping, calling the query collaborator) are
    recorded in a trace of events, in the order in which they happen. *)

From Stdlib Require Import ZArith List String Bool Lia.
Import ListNotations.
Open Scope Z_scope.

(** ** Python values, exceptions and outcomes *)

(** The Python objects that reach the two functions: [None], integers,
    strings, lists and dicts (a row of a table is a dict). *)
#[warnings="-register-all"]
Inductive value : Type :=
| VNone
| VInt (z : Z)
| VStr (s : string)
| VList (items : list value)
| VDict (entries : list (string * value)).

(** An instance of [Exception], which is what [except Exception] catches.
    [exc_code] is the attribute [code]: [None] when [hasattr(error, "code")]
    is false.  [exc_truthy] is [bool(error)]: true for the built-in
    exceptions, false for an instance of a class whose [__bool__] or
    [__len__] says so. *)
Record exception : Type := mkException {
  exc_type : string;
  exc_msg : string;
  exc_code : option value;
  exc_truthy : bool
}.

Definition Exception (msg : string) : exception :=
  mkException "Exception" msg None true.
Definition ValueError (msg : string) : exception :=
  mkException "ValueError" msg None true.
Definition TypeError (msg : string) : exception :=
  mkException "TypeError" msg None true.
Definition ZeroDivisionError (msg : string) : exception :=
  mkException "ZeroDivisionError" msg None true.
Definition OverflowError (msg : string) : exception :=
  mkException "OverflowError" msg None true.

(** What evaluating a Python expression yields: a value, or a raised
    exception. *)
Inductive outcome (A : Type) : Type :=
| Return (a : A)
| Raise (e : exception).
Arguments Return {A} a.
Arguments Raise {A} e.

(** [range(n)] of Python: [0, 1, ..., n-1], empty when [n <= 0]. *)
Definition py_range (n : Z) : list Z := map Z.of_nat (seq 0 (Z.to_nat n)).

Module Retry.

(** [@dataclass RetryConfig], with its defaults in [default_config]. *)
Record RetryConfig : Type := mkRetryConfig {
  max_retries : Z;
  delay_ms : Z;
  exponential_backoff : bool;
  should_retry : option (exception -> bool)
}.

Definition default_config : RetryConfig :=
  mkRetryConfig 3 1000 true None.

(** The observable effects of [with_retry]: a call of the operation, and a
    completed [time.sleep]; the event keeps the delay in milliseconds, which
    the code hands to [time.sleep] as [delay / 1000.0] seconds. *)
Inductive event : Type :=
| Invoke
| Sleep (ms : Z).

(** [error_code in ["23505", "23503"]], for an error that has the attribute. *)
Definition code_in_non_retryable (error_code : value) : bool :=
  match error_code with
  | VStr s => String.eqb s "23505" || String.eqb s "23503"
  | _ => false
  end.

(** Lines 70-73: [hasattr(error, "code")] and the code is one of the two. *)
Definition has_non_retryable_code (error : exception) : bool :=
  match exc_code error with
  | Some error_code => code_in_non_retryable error_code
  | None => false
  end.

(** Line 66: [config.should_retry and not config.should_retry(error)]. *)
Definition rejected_by_predicate (config : RetryConfig) (error : exception)
  : bool :=
  match should_retry config with
  | Some p => negb (p error)
  | None => false
  end.

(** Lines 78-81: the delay before the next attempt. *)
Definition delay_of (config : RetryConfig) (attempt : Z) : Z :=
  if exponential_backoff config then delay_ms config * 2 ^ attempt
  else delay_ms config.

Section WithRetry.

(** [W] is the state the operation reads and writes between calls, [V] the
    type of its results.  An operation is a zero-argument callable: from a
    state it returns or raises, and leaves a new state. *)
Context {W V : Type}.

(** Line 83 computes [delay / 1000.0] and hands it to [time.sleep], which
    turns it into a C timestamp: both steps are floating-point conversions
    that raise [OverflowError] on a delay too large in magnitude.
    [sleep_overflow ms] is that error, when [ms] milliseconds is such a
    delay. *)
Variable sleep_overflow : Z -> option exception.

(** [time.sleep(delay / 1000.0)], for a delay in milliseconds: after the
    conversions, a negative duration raises [ValueError]. *)
Definition time_sleep (ms : Z) : outcome unit :=
  match sleep_overflow ms with
  | Some overflow => Raise overflow
  | None =>
      if ms <? 0 then Raise (ValueError "sleep length must be non-negative")
      else Return tt
  end.

Definition operation : Type := W -> outcome V * W.

(** The result of a run: what [with_retry] returns or raises, the state the
    operation is left in, and the trace of events. *)
Definition run : Type := outcome V * W * list event.

Definition emit (evs : list event) (r : run) : run :=
  let '(o, w, tr) := r in (o, w, evs ++ tr).

(** The [for attempt in range(...)] loop of lines 59-84 followed by line 87,
    over the attempt indices still to run. *)
Fixpoint retry_loop (op : operation) (config : RetryConfig)
    (attempts : list Z) (last_error : option exception) (w : W) : run :=
  match attempts with
  | [] =>
      (* line 87: raise last_error or Exception(...) *)
      match last_error with
      | Some error =>
          if exc_truthy error then (Raise error, w, [])
          else (Raise (Exception "Operation failed after retries"), w, [])
      | None => (Raise (Exception "Operation failed after retries"), w, [])
      end
  | attempt :: rest =>
      match op w with
      | (Return v, w') => (Return v, w', [Invoke])
      | (Raise error, w') =>
          if rejected_by_predicate config error then
            (Raise error, w', [Invoke])
          else if has_non_retryable_code error then
            (Raise error, w', [Invoke])
          else if attempt <? max_retries config then
            let delay := delay_of config attempt in
            match time_sleep delay with
            | Raise sleep_error => (Raise sleep_error, w', [Invoke])
            | Return _ =>
                emit [Invoke; Sleep delay]
                     (retry_loop op config rest (Some error) w')
            end
          else
            emit [Invoke] (retry_loop op config rest (Some error) w')
      end
  end.

Definition with_retry (op : operation) (config : option RetryConfig)
    (w : W) : run :=
  let config :=
    match config with
    | None => default_config
    | Some c => c
    end in
  retry_loop op config (py_range (max_retries config + 1)) None w.

(** *** Reading a run *)

Definition result (r : run) : outcome V := fst (fst r).
Definition final_state (r : run) : W := snd (fst r).
Definition trace (r : run) : list event := snd r.

Definition is_invoke (ev : event) : bool :=
  match ev with Invoke => true | Sleep _ => false end.

(** How many times the operation was invoked. *)
Definition invocations (tr : list event) : nat :=
  List.length (filter is_invoke tr).

(** The delays slept, in order. *)
Fixpoint sleeps (tr : list event) : list Z :=
  match tr with
  | [] => []
  | Invoke :: tr' => sleeps tr'
  | Sleep ms :: tr' => ms :: sleeps tr'
  end.

(** *** Describing an operation by its successive calls *)

(** The state in which the call of index [i] (0-indexed) starts. *)
Fixpoint state_before (op : operation) (w : W) (i : nat) : W :=
  match i with
  | O => w
  | S j => snd (op (state_before op w j))
  end.

(** What the call of index [i] does. *)
Definition nth_call (op : operation) (w : W) (i : nat) : outcome V :=
  fst (op (state_before op w i)).

(** An error after which the loop goes on: the predicate, if any, accepts
    it and it has no non-retryable code. *)
Definition retryable (config : RetryConfig) (error : exception) : bool :=
  negb (rejected_by_predicate config error)
  && negb (has_non_retryable_code error).

(** The call of index [i] raises an error that is retryable. *)
Definition fails_retryably (op : operation) (config : RetryConfig) (w : W)
    (i : nat) : Prop :=
  exists error,
    nth_call op w i = Raise error /\ retryable config error = true.

(** The sleeps after the attempts of index [a .. a + k - 1] are delays
    that the conversions of line 83 accept. *)
Definition delays_accepted (config : RetryConfig) (a k : nat) : Prop :=
  forall i, (a <= i < a + k)%nat ->
            sleep_overflow (delay_of config (Z.of_nat i)) = None.

(** *** The trace of a run of failed attempts *)

(** The events of [k] failed attempts, from attempt index [a] on, each
    followed by its sleep. *)
Definition backoff_trace (config : RetryConfig) (a k : nat) : list event :=
  flat_map (fun i => [Invoke; Sleep (delay_of config (Z.of_nat i))])
           (seq a k).

(** The value of [last_error] after [k] more failed calls. *)
Definition last_error_after (op : operation) (w : W) (k : nat)
    (last : option exception) : option exception :=
  match k with
  | O => last
  | S j =>
      match nth_call op w j with
      | Raise error => Some error
      | Return _ => None
      end
  end.

End WithRetry.

End Retry.

Module Pagination.

(** [@dataclass PaginationParams]. *)
Record PaginationParams : Type := mkPaginationParams {
  params_page : Z;
  params_limit : Z
}.

(** [@dataclass PaginatedResponse]. *)
Record PaginatedResponse : Type := mkPaginatedResponse {
  data : value;
  total : Z;
  page : Z;
  limit : Z;
  total_pages : Z;
  has_next : bool;
  has_prev : bool
}.

(** What [execute()] hands back: an object that may or may not have the
    attributes [data] and [count] ([None] here: [hasattr] is false). *)
Record response : Type := mkResponse {
  attr_data : option value;
  attr_count : option value
}.

(** The query collaborator: [query.range(a, b)] gives (or raises) a request
    whose [execute()] gives (or raises) a response. *)
Record request : Type := mkRequest {
  execute : outcome response
}.

Record query : Type := mkQuery {
  range : Z -> Z -> outcome request
}.

(** The calls made to the collaborator. *)
Inductive call : Type :=
| CallRange (first last : Z)
| CallExecute.

(** The [range] calls of a trace. *)
Definition is_range_call (c : call) : bool :=
  match c with CallRange _ _ => true | CallExecute => false end.

(** [len(data)]. *)
Definition len (v : value) : outcome Z :=
  match v with
  | VList items => Return (Z.of_nat (List.length items))
  | VDict entries => Return (Z.of_nat (List.length entries))
  | VStr s => Return (Z.of_nat (String.length s))
  | VNone => Raise (TypeError "object of type 'NoneType' has no len()")
  | VInt _ => Raise (TypeError "object of type 'int' has no len()")
  end.

(** Line 68. *)
Definition extract_data (resp : response) : value :=
  match attr_data resp with
  | Some d => d
  | None => VList []
  end.

(** Line 69. *)
Definition extract_total (resp : response) (data : value) : outcome value :=
  match attr_count resp with
  | Some c => Return c
  | None =>
      match len data with
      | Return n => Return (VInt n)
      | Raise e => Raise e
      end
  end.

(** Line 71: [(total + limit - 1) // limit]; the sum is evaluated first and
    needs an integer [total], the division needs a divisor other than 0. *)
Definition ceiling_division (total : value) (limit : Z) : outcome (Z * Z) :=
  match total with
  | VInt t =>
      if limit =? 0 then
        Raise (ZeroDivisionError "integer division or modulo by zero")
      else Return (t, (t + limit - 1) / limit)
  | _ => Raise (TypeError "unsupported operand type(s) for +")
  end.

(** Lines 66-81, once the collaborator has answered. *)
Definition build_response (resp : response) (page limit : Z)
  : outcome PaginatedResponse :=
  let data := extract_data resp in
  match extract_total resp data with
  | Raise e => Raise e
  | Return total =>
      match ceiling_division total limit with
      | Raise e => Raise e
      | Return (total, total_pages) =>
          Return (mkPaginatedResponse data total page limit total_pages
                    (page <? total_pages) (1 <? page))
      end
  end.

(** [paginate(query, params)]: its outcome and the calls it made. *)
Definition paginate (q : query) (params : PaginationParams)
  : outcome PaginatedResponse * list call :=
  let page := params_page params in
  let limit := params_limit params in
  let offset := (page - 1) * limit in
  match range q offset (offset + limit - 1) with
  | Raise e => (Raise e, [CallRange offset (offset + limit - 1)])
  | Return req =>
      match execute req with
      | Raise e =>
          (Raise e, [CallRange offset (offset + limit - 1); CallExecute])
      | Return resp =>
          (build_response resp page limit,
           [CallRange offset (offset + limit - 1); CallExecute])
      end
  end.

(** A collaborator that answers every range with the same response. *)
Definition constant_query (resp : response) : query :=
  mkQuery (fun _ _ => Return (mkRequest (Return resp))).

Section ParsePaginationParams.

(** [int(x)] of Python on the values found in the search parameters; it
    raises on what is not a number. *)
Variable int : value -> outcome Z.

(** [search_params.get(key, default)]. *)
Definition get (search_params : list (string * value)) (key : string)
    (default : value) : value :=
  match find (fun kv => String.eqb (fst kv) key) search_params with
  | Some kv => snd kv
  | None => default
  end.

(** Lines 108-118. *)
Definition parse_pagination_params (search_params : list (string * value))
    (defaults : option PaginationParams) : outcome PaginationParams :=
  let defaults :=
    match defaults with
    | None => mkPaginationParams 1 10
    | Some d => d
    end in
  match int (get search_params "page" (VInt (params_page defaults))) with
  | Raise e => Raise e
  | Return page =>
      match int (get search_params "limit" (VInt (params_limit defaults)))
      with
      | Raise e => Raise e
      | Return limit =>
          let page := Z.max 1 page in
          let limit := Z.max 1 (Z.min 100 limit) in
          Return (mkPaginationParams page limit)
      end
  end.

End ParsePaginationParams.

End Pagination.

(** ** Concrete operations, policies and collaborators

    The operations are those of [tests/test_utils.py]: they count their
    calls in a cell, which is the state here. *)
Module Scenarios.

Import Retry Pagination.

(** [raise Exception("Persistent error")] on every call. *)
Definition persistent_error : @operation nat string :=
  fun attempts => (Raise (Exception "Persistent error"), S attempts).

(** [attempts[0] += 1; if attempts[0] < n: raise ...; return "success"]. *)
Definition temporary_error (n : nat) : @operation nat string :=
  fun attempts =>
    let attempts := S attempts in
    if (attempts <? n)%nat
    then (Raise (Exception "Temporary error"), attempts)
    else (Return "success"%string, attempts).

(** An error of the database client with the code of a unique-constraint
    violation. *)
Definition unique_violation : exception :=
  mkException "APIError" "duplicate key value" (Some (VStr "23505")) true.

(** An instance of an exception class that defines [__len__] as 0: a falsy
    object. *)
Definition empty_batch : exception :=
  mkException "EmptyBatch" "nothing to send" None false.

Definition sends_empty_batch : @operation nat string :=
  fun attempts => (Raise empty_batch, S attempts).

(** A stand-in for the conversions of [time.sleep]: durations are kept as
    64-bit nanoseconds, so a delay beyond [2^63] ns in magnitude does not
    fit (the rounding of the floats at the bound is left out). *)
Definition ns64_overflow (ms : Z) : option exception :=
  if 2 ^ 63 <? Z.abs ms * 1000000
  then Some (OverflowError "timestamp too large to convert to C _PyTime_t")
  else None.

Definition conflicting_insert : @operation nat string :=
  fun attempts => (Raise unique_violation, S attempts).

Definition retry_everything : exception -> bool := fun _ => true.
Definition retry_nothing : exception -> bool := fun _ => false.

(** [RetryConfig(max_retries=2, delay_ms=10)] and the like. *)
Definition two_retries : RetryConfig := mkRetryConfig 2 10 true None.
Definition three_retries : RetryConfig := mkRetryConfig 3 10 true None.
Definition backoff_100 : RetryConfig := mkRetryConfig 2 100 true None.
Definition constant_100 : RetryConfig := mkRetryConfig 2 100 false None.
Definition always_retry : RetryConfig :=
  mkRetryConfig 3 10 true (Some retry_everything).
Definition never_retry : RetryConfig :=
  mkRetryConfig 3 10 true (Some retry_nothing).
Definition no_attempts : RetryConfig := mkRetryConfig (-1) 10 true None.
Definition negative_delay : RetryConfig := mkRetryConfig 2 (-10) true None.
Definition single_attempt : RetryConfig := mkRetryConfig 0 10 true None.
Definition three_centuries : RetryConfig :=
  mkRetryConfig 2 10000000000000 true None.

(** A table of 25 posts, answered with the rows of a page and the count. *)
Definition post (id : Z) : value := VDict [("id"%string, VInt id)].
Definition posts_25 : query :=
  constant_query (mkResponse (Some (VList [post 1; post 2])) (Some (VInt 25))).
Definition no_posts : query :=
  constant_query (mkResponse (Some (VList [])) (Some (VInt 0))).

(** An answer with neither [data] nor [count]. *)
Definition bare_response : response := mkResponse None None.
Definition bare_query : query := constant_query bare_response.

(** An answer with rows and no [count]. *)
Definition uncounted_query : query :=
  constant_query (mkResponse (Some (VList [post 1; post 2; post 3])) None).

(** [int] on the values of this model: integers only. *)
Definition int_of_value (v : value) : outcome Z :=
  match v with
  | VInt z => Return z
  | _ => Raise (ValueError "invalid literal for int()")
  end.

End Scenarios.

(** ** Python dicts with string keys, and truthiness *)

(** [key in d] and [d[key]]: the entry of a key, if there is one. *)
Definition dict_get {A : Type} (d : list (string * A)) (key : string)
  : option A :=
  match find (fun kv => String.eqb (fst kv) key) d with
  | Some kv => Some (snd kv)
  | None => None
  end.

(** [del d[key]]. *)
Definition dict_del {A : Type} (d : list (string * A)) (key : string)
  : list (string * A) :=
  filter (fun kv => negb (String.eqb (fst kv) key)) d.

(** [d[key] = v]. *)
Definition dict_set {A : Type} (d : list (string * A)) (key : string) (v : A)
  : list (string * A) :=
  (key, v) :: dict_del d key.

(** [bool(v)]: [None], [0], the empty string, list and dict are false. *)
Definition truthy (v : value) : bool :=
  match v with
  | VNone => false
  | VInt z => negb (z =? 0)
  | VStr s => negb (String.eqb s "")
  | VList items => match items with [] => false | _ :: _ => true end
  | VDict entries => match entries with [] => false | _ :: _ => true end
  end.

(** [a or b]. *)
Definition py_or (a b : value) : value := if truthy a then a else b.

(** The milliseconds slept in a run of [with_retry], in total. *)
Definition total_sleep (tr : list Retry.event) : Z :=
  fold_right Z.add 0 (Retry.sleeps tr).

Module ErrorHandler.

Definition SUPABASE_ERROR_CODES : list (string * string) :=
  [("PGRST116", "No rows returned");
   ("23505", "Unique constraint violation");
   ("23503", "Foreign key constraint violation");
   ("42P01", "Table does not exist");
   ("42501", "Insufficient privileges");
   ("PGRST301", "JWT expired");
   ("PGRST302", "JWT invalid")]%string.

(** [@dataclass NormalizedError]; the fields hold whatever the error
    carried. *)
Record NormalizedError : Type := mkNormalizedError {
  message : value;
  code : value;
  status_code : value;
  details : value
}.

(** The argument [error: Any]: a dict, or another object, given by its
    attributes and by what [str(error)] is. *)
Inductive error_arg : Type :=
| ErrDict (entries : list (string * value))
| ErrObject (attrs : list (string * value)) (as_str : string).

(** [d.get(key)]. *)
Definition get_or_none (d : list (string * value)) (key : string) : value :=
  match dict_get d key with
  | Some v => v
  | None => VNone
  end.

(** Line 74: [{"details": details} if details else None]. *)
Definition wrap_details (details : value) : value :=
  if truthy details then VDict [("details"%string, details)] else VNone.

Section NormalizeError.

(** [str(x)] of Python on the values of an error. *)
Variable str : value -> string.

(** Lines 54-75. *)
Definition normalize_error (error : error_arg) : NormalizedError :=
  match error with
  | ErrDict d =>
      let message :=
        match dict_get d "message" with
        | Some m => m
        | None => VStr (str (VDict d))
        end in
      let code := py_or (get_or_none d "code") (get_or_none d "error_code") in
      let status_code :=
        py_or (get_or_none d "status_code") (get_or_none d "status") in
      let details := py_or (get_or_none d "details") (get_or_none d "hint") in
      mkNormalizedError message code status_code (wrap_details details)
  | ErrObject attrs as_str =>
      match dict_get attrs "message" with
      | Some m =>
          mkNormalizedError (VStr (str m)) (get_or_none attrs "code")
            (get_or_none attrs "status_code")
            (wrap_details (get_or_none attrs "details"))
      | None =>
          mkNormalizedError (VStr as_str) VNone VNone (wrap_details VNone)
      end
  end.

(** Lines 89-90: [normalized.code == code], for a string [code]. *)
Definition is_error_code (error : error_arg) (c : string) : bool :=
  match code (normalize_error error) with
  | VStr s => String.eqb s c
  | _ => false
  end.

(** Lines 114-121.  [normalized.code in SUPABASE_ERROR_CODES] hashes the
    code, which raises on a list or a dict. *)
Definition get_user_friendly_message (error : error_arg) : outcome value :=
  let normalized := normalize_error error in
  if truthy (code normalized) then
    match code normalized with
    | VStr s =>
        match dict_get SUPABASE_ERROR_CODES s with
        | Some friendly => Return (VStr friendly)
        | None => Return (message normalized)
        end
    | VList _ => Raise (TypeError "unhashable type: 'list'")
    | VDict _ => Raise (TypeError "unhashable type: 'dict'")
    | VInt _ | VNone => Return (message normalized)
    end
  else Return (message normalized).

End NormalizeError.

End ErrorHandler.

Module Cache.

Section QueryCacheModel.

(** The readings of [time.time()] are floats; the cache only compares them
    ([>]) and adds the time-to-live to them. *)
Variable time : Type.
Variable time_gt : time -> time -> bool.
Variable time_add : time -> Z -> time.

(** An entry [{"value": ..., "expires_at": ...}]. *)
Record entry : Type := mkEntry {
  entry_value : value;
  expires_at : time
}.

(** [class QueryCache]. *)
Record QueryCache : Type := mkQueryCache {
  cache : list (string * entry);
  ttl_seconds : Z
}.

(** [QueryCache(ttl_seconds)]; the default is [QueryCache(300)]. *)
Definition init (ttl : Z) : QueryCache := mkQueryCache [] ttl.

(** Lines 51-59; [now] is the reading of the clock in line 55. *)
Definition get (self : QueryCache) (key : string) (now : time)
  : value * QueryCache :=
  match dict_get (cache self) key with
  | None => (VNone, self)
  | Some e =>
      if time_gt now (expires_at e) then
        (VNone, mkQueryCache (dict_del (cache self) key) (ttl_seconds self))
      else (entry_value e, self)
  end.

(** Lines 69-72. *)
Definition set (self : QueryCache) (key : string) (v : value) (now : time)
  : QueryCache :=
  mkQueryCache
    (dict_set (cache self) key (mkEntry v (time_add now (ttl_seconds self))))
    (ttl_seconds self).

(** Line 95. *)
Definition clear (self : QueryCache) : QueryCache :=
  mkQueryCache [] (ttl_seconds self).

(** Lines 104-105. *)
Definition invalidate (self : QueryCache) (key : string) : QueryCache :=
  match dict_get (cache self) key with
  | Some _ =>
      mkQueryCache (dict_del (cache self) key) (ttl_seconds self)
  | None => self
  end.

(** What a call of [get_or_set] leaves: its outcome, the state of the
    operation, the cache, and how many times the operation was called. *)
Record get_or_set_run (W : Type) : Type := mkRun {
  run_outcome : outcome value;
  run_state : W;
  run_cache : QueryCache;
  run_calls : nat
}.
(** Lines 85-91; [now_get] and [now_set] are the readings of the clock in
    [get] and in [set]. *)
Definition get_or_set {W : Type} (self : QueryCache) (key : string)
    (operation : W -> outcome value * W) (w : W) (now_get now_set : time)
  : get_or_set_run W :=
  let '(cached, self) := get self key now_get in
  match cached with
  | VNone =>
      match operation w with
      | (Raise e, w') => mkRun W (Raise e) w' self 1
      | (Return result, w') =>
          mkRun W (Return result) w' (set self key result now_set) 1
      end
  | _ => mkRun W (Return cached) w self 0
  end.

End QueryCacheModel.

Arguments mkEntry {time}.
Arguments entry_value {time}.
Arguments expires_at {time}.
Arguments mkQueryCache {time}.
Arguments cache {time}.
Arguments ttl_seconds {time}.
Arguments init {time}.
Arguments get {time}.
Arguments set {time}.
Arguments clear {time}.
Arguments invalidate {time}.
Arguments mkRun {time W}.
Arguments run_outcome {time W}.
Arguments run_state {time W}.
Arguments run_cache {time W}.
Arguments run_calls {time W}.
Arguments get_or_set {time} time_gt time_add {W}.

End Cache.

Module RlsHelpers.

(** The object under [user.user]: its attributes [id] and [app_metadata],
    when it has them. *)
Record auth_user : Type := mkAuthUser {
  attr_id : option value;
  attr_app_metadata : option value
}.

(** What [client.auth.get_user()] returns, when it is an object: its
    attribute [user], when it has one, is [None] or a user. *)
Record user_response : Type := mkUserResponse {
  attr_user : option (option auth_user)
}.

(** The client, as far as these helpers use it: [client.auth.get_user()]
    raises, or returns [None] or a response. *)
Record client : Type := mkClient {
  get_user : outcome (option user_response)
}.

(** Line 100: [user and hasattr(user, "user") and user.user]. *)
Definition authenticated_user (c : client) : option auth_user :=
  match get_user c with
  | Return (Some resp) =>
      match attr_user resp with
      | Some (Some u) => Some u
      | _ => None
      end
  | _ => None
  end.

(** Lines 98-106; the [except Exception] gives [None]. *)
Definition get_current_user_role (c : client) : value :=
  match authenticated_user c with
  | Some u =>
      match attr_app_metadata u with
      | Some (VDict entries) =>
          if truthy (VDict entries)
          then ErrorHandler.get_or_none entries "role"
          else VNone
      | _ => VNone
      end
  | None => VNone
  end.

(** Lines 66-72. *)
Definition get_current_user_id (c : client) : value :=
  match authenticated_user c with
  | Some u =>
      match attr_id u with
      | Some id => id
      | None => VNone
      end
  | None => VNone
  end.

(** Lines 131-132: [role == required_role], for a string. *)
Definition has_role (c : client) (required_role : string) : bool :=
  match get_current_user_role c with
  | VStr role => String.eqb role required_role
  | _ => false
  end.

End RlsHelpers.

(** ** More concrete inputs *)
Module MoreScenarios.

Import Pagination ErrorHandler Cache RlsHelpers.

(** A collaborator that cannot be reached. *)
Definition unreachable_query : query :=
  mkQuery (fun _ _ => Raise (Exception "connection refused")).

(** A collaborator that was not asked for a count: [count] is [None]. *)
Definition count_none_query : query :=
  constant_query (mkResponse (Some (VList [])) (Some VNone)).

(** [?page=0&limit=500], already converted to integers. *)
Definition wild_params : list (string * value) :=
  [("page", VInt 0); ("limit", VInt 500)]%string.

(** A [str] for the values of the examples. *)
Definition show (v : value) : string :=
  match v with
  | VStr s => s
  | VNone => "None"
  | _ => "<object>"
  end.

Definition duplicate_key_dict : error_arg :=
  ErrDict [("message", VStr "duplicate key value");
           ("code", VStr "23505")]%string.

Definition expired_jwt_dict : error_arg :=
  ErrDict [("error_code", VStr "PGRST301")]%string.

(** An exception with a [code] and no [message] attribute. *)
Definition bare_exception : error_arg :=
  ErrObject [("code"%string, VStr "23505")] "duplicate key value".

(** A clock in whole seconds. *)
Definition five_minutes : QueryCache Z := init 300.

Definition fetch_posts : nat -> outcome value * nat :=
  fun calls => (Return (VList [VInt 1; VInt 2]), S calls).

Definition fetch_nothing : nat -> outcome value * nat :=
  fun calls => (Return VNone, S calls).

(** A client whose user has the role [admin]. *)
Definition admin_client : client :=
  mkClient
    (Return
       (Some
          (mkUserResponse
             (Some
                (Some
                   (mkAuthUser (Some (VStr "user-123"))
                      (Some (VDict [("role"%string, VStr "admin")])))))))).

End MoreScenarios.

(** * The retry executor *)

Import Retry.

Section RetryFacts.

Context {W V : Type}.
Variable sleep_overflow : Z -> option exception.
Implicit Types (op : @operation W V) (config : RetryConfig) (w : W).

Lemma with_retry_default op w :
  with_retry sleep_overflow op None w =
  with_retry sleep_overflow op (Some default_config) w.
Proof. reflexivity. Qed.

Lemma py_range_nonpos (n : Z) : n <= 0 -> py_range n = [].
Proof.
  intros Hn. unfold py_range.
  replace (Z.to_nat n) with O by lia. reflexivity.
Qed.

Lemma py_range_succ (n : Z) :
  0 <= n -> py_range (n + 1) = py_range n ++ [n].
Proof.
  intros Hn. unfold py_range.
  replace (Z.to_nat (n + 1)) with (S (Z.to_nat n)) by lia.
  rewrite seq_S, map_app. simpl. now rewrite Z2Nat.id.
Qed.

Lemma py_range_split (n : Z) (k : nat) :
  Z.of_nat k <= n ->
  py_range n =
  map Z.of_nat (seq 0 k) ++ map Z.of_nat (seq k (Z.to_nat n - k)).
Proof.
  intros Hk. unfold py_range.
  replace (Z.to_nat n) with (k + (Z.to_nat n - k))%nat at 1 by lia.
  now rewrite seq_app, map_app.
Qed.

Lemma state_before_shift op w (i : nat) :
  state_before op w (S i) = state_before op (snd (op w)) i.
Proof.
  induction i as [|i IH]; [reflexivity|].
  simpl in *. now rewrite IH.
Qed.

Lemma nth_call_shift op w (i : nat) :
  nth_call op w (S i) = nth_call op (snd (op w)) i.
Proof. unfold nth_call. now rewrite state_before_shift. Qed.

Lemma fails_retryably_shift op config w (i : nat) :
  fails_retryably op config w (S i) ->
  fails_retryably op config (snd (op w)) i.
Proof.
  intros [error [Hcall Hret]]. exists error.
  now rewrite <- nth_call_shift.
Qed.

Lemma delay_of_nonneg config (i : nat) :
  0 <= delay_ms config -> 0 <= delay_of config (Z.of_nat i).
Proof.
  intros Hd. unfold delay_of.
  destruct (exponential_backoff config); [|assumption].
  apply Z.mul_nonneg_nonneg; [assumption|].
  apply Z.pow_nonneg. lia.
Qed.

(** A sleep returns when the conversions accept the delay and it is not
    negative. *)
Lemma time_sleep_accepted (ms : Z) :
  sleep_overflow ms = None ->
  0 <= ms ->
  time_sleep sleep_overflow ms = Return tt.
Proof.
  intros Hfit Hms. unfold time_sleep. rewrite Hfit.
  destruct (ms <? 0) eqn:E; [apply Z.ltb_lt in E; lia | reflexivity].
Qed.

Lemma delays_accepted_tail config (a k : nat) :
  delays_accepted sleep_overflow config a (S k) ->
  sleep_overflow (delay_of config (Z.of_nat a)) = None /\
  delays_accepted sleep_overflow config (S a) k.
Proof.
  intros H. split; [apply H; lia|].
  intros i Hi. apply H. lia.
Qed.

Lemma retryable_split config error :
  retryable config error = true ->
  rejected_by_predicate config error = false /\
  has_non_retryable_code error = false.
Proof.
  unfold retryable. intros H. apply andb_prop in H as [H1 H2].
  split; now apply negb_true_iff.
Qed.

Lemma emit_emit (evs1 evs2 : list event) (r : @run W V) :
  emit evs1 (emit evs2 r) = emit (evs1 ++ evs2) r.
Proof. destruct r as [[o w] tr]. simpl. now rewrite app_assoc. Qed.

Lemma result_emit evs (r : @run W V) : result (emit evs r) = result r.
Proof. now destruct r as [[o w] tr]. Qed.

Lemma final_state_emit evs (r : @run W V) :
  final_state (emit evs r) = final_state r.
Proof. now destruct r as [[o w] tr]. Qed.

Lemma trace_emit evs (r : @run W V) :
  trace (emit evs r) = evs ++ trace r.
Proof. now destruct r as [[o w] tr]. Qed.

(** One failed attempt that is not the last one: the call, the sleep, and
    the rest of the loop with [last_error] set. *)
Lemma retry_loop_step op config (attempt : nat) rest last w error :
  0 <= delay_ms config ->
  sleep_overflow (delay_of config (Z.of_nat attempt)) = None ->
  fst (op w) = Raise error ->
  retryable config error = true ->
  Z.of_nat attempt < max_retries config ->
  retry_loop sleep_overflow op config (Z.of_nat attempt :: rest) last w =
  emit [Invoke; Sleep (delay_of config (Z.of_nat attempt))]
       (retry_loop sleep_overflow op config rest (Some error) (snd (op w))).
Proof.
  intros Hd Hfit Hcall Hret Hlt.
  apply retryable_split in Hret as [Hrej Hcode].
  simpl. destruct (op w) as [o w'] eqn:Hop. simpl in Hcall. subst o.
  rewrite Hrej, Hcode.
  apply Z.ltb_lt in Hlt. rewrite Hlt.
  now rewrite (time_sleep_accepted _ Hfit (delay_of_nonneg config attempt Hd)).
Qed.

(** [k] failed attempts, none of them the last one. *)
Lemma retry_loop_failures op config (k : nat) :
  forall (a : nat) rest last w,
    0 <= delay_ms config ->
    delays_accepted sleep_overflow config a k ->
    (forall i, (i < k)%nat -> fails_retryably op config w i) ->
    Z.of_nat (a + k) <= max_retries config ->
    retry_loop sleep_overflow op config (map Z.of_nat (seq a k) ++ rest)
      last w =
    emit (backoff_trace config a k)
         (retry_loop sleep_overflow op config rest
            (last_error_after op w k last) (state_before op w k)).
Proof.
  induction k as [|k IH]; intros a rest last w Hd Hfit Hfail Hle.
  - simpl.
    now destruct (retry_loop sleep_overflow op config rest last w)
      as [[o w'] tr].
  - destruct (Hfail O ltac:(lia)) as [error [Hcall Hret]].
    apply delays_accepted_tail in Hfit as [Hfit0 Hfit].
    unfold nth_call in Hcall. simpl in Hcall.
    cbn [seq map app].
    rewrite (retry_loop_step op config a _ last w error Hd Hfit0 Hcall Hret)
      by lia.
    rewrite (IH (S a) rest (Some error) (snd (op w)) Hd Hfit).
    + rewrite emit_emit. rewrite state_before_shift.
      unfold backoff_trace. cbn [seq flat_map].
      replace (last_error_after op (snd (op w)) k (Some error))
        with (last_error_after op w (S k) last); [reflexivity|].
      destruct k as [|k]; simpl.
      * unfold nth_call. simpl. now rewrite Hcall.
      * now rewrite nth_call_shift.
    + intros i Hi. apply fails_retryably_shift. apply Hfail. lia.
    + lia.
Qed.

Lemma invocations_app (tr1 tr2 : list event) :
  invocations (tr1 ++ tr2) = (invocations tr1 + invocations tr2)%nat.
Proof. unfold invocations. now rewrite filter_app, length_app. Qed.

Lemma sleeps_app (tr1 tr2 : list event) :
  sleeps (tr1 ++ tr2) = sleeps tr1 ++ sleeps tr2.
Proof.
  induction tr1 as [|[|ms] tr1 IH]; simpl; [reflexivity|assumption|].
  now rewrite IH.
Qed.

Lemma invocations_backoff_trace config (a k : nat) :
  invocations (backoff_trace config a k) = k.
Proof.
  revert a. induction k as [|k IH]; intros a; [reflexivity|].
  unfold backoff_trace in *. cbn [seq flat_map].
  rewrite invocations_app, IH. reflexivity.
Qed.

Lemma sleeps_backoff_trace config (a k : nat) :
  sleeps (backoff_trace config a k) =
  map (fun i => delay_of config (Z.of_nat i)) (seq a k).
Proof.
  revert a. induction k as [|k IH]; intros a; [reflexivity|].
  unfold backoff_trace in *. cbn [seq flat_map map].
  rewrite sleeps_app, IH. reflexivity.
Qed.

(** The last attempt, of index [max_retries], failing with a retryable
    error: no sleep, the loop ends and line 87 raises that error when it is
    truthy, and the generic error in its place when it is not. *)
Lemma retry_loop_last op config last w error :
  fst (op w) = Raise error ->
  retryable config error = true ->
  retry_loop sleep_overflow op config [max_retries config] last w =
  (Raise (if exc_truthy error then error
          else Exception "Operation failed after retries"),
   snd (op w), [Invoke]).
Proof.
  intros Hcall Hret.
  apply retryable_split in Hret as [Hrej Hcode].
  simpl. destruct (op w) as [o w'] eqn:Hop. simpl in Hcall. subst o.
  rewrite Hrej, Hcode, Z.ltb_irrefl. now destruct (exc_truthy error).
Qed.

(** An attempt that returns ends the loop with that value. *)
Lemma retry_loop_success op config attempt rest last w v :
  fst (op w) = Return v ->
  retry_loop sleep_overflow op config (attempt :: rest) last w =
  (Return v, snd (op w), [Invoke]).
Proof.
  intros Hcall. simpl.
  destruct (op w) as [o w'] eqn:Hop. simpl in Hcall. now subst o.
Qed.

(** An attempt that raises an error the loop does not retry. *)
Lemma retry_loop_reraise op config attempt rest last w error :
  fst (op w) = Raise error ->
  retryable config error = false ->
  retry_loop sleep_overflow op config (attempt :: rest) last w =
  (Raise error, snd (op w), [Invoke]).
Proof.
  intros Hcall Hret. simpl.
  destruct (op w) as [o w'] eqn:Hop. simpl in Hcall. subst o.
  unfold retryable in Hret.
  destruct (rejected_by_predicate config error); [reflexivity|].
  destruct (has_non_retryable_code error); [reflexivity|discriminate].
Qed.

Lemma py_range_cons (n : Z) :
  0 <= n -> py_range (n + 1) = 0 :: map Z.of_nat (seq 1 (Z.to_nat n)).
Proof.
  intros Hn. unfold py_range.
  replace (Z.to_nat (n + 1)) with (S (Z.to_nat n)) by lia. reflexivity.
Qed.

(** The run of [k] failed attempts followed by attempt [k], for
    [k <= max_retries]. *)
Lemma with_retry_failures op config w (k : nat) :
  0 <= delay_ms config ->
  delays_accepted sleep_overflow config 0 k ->
  (forall i, (i < k)%nat -> fails_retryably op config w i) ->
  Z.of_nat k <= max_retries config ->
  with_retry sleep_overflow op (Some config) w =
  emit (backoff_trace config 0 k)
       (retry_loop sleep_overflow op config
          (map Z.of_nat (seq k (Z.to_nat (max_retries config + 1) - k)))
          (last_error_after op w k None) (state_before op w k)).
Proof.
  intros Hd Hfit Hfail Hle. unfold with_retry.
  rewrite (py_range_split (max_retries config + 1) k) by lia.
  apply retry_loop_failures; [assumption|assumption|assumption|simpl; lia].
Qed.

(** C1, amended. For every [max_retries = n >= 0] and every operation that
    raises on every call, with no [should_retry] predicate and no
    non-retryable code on the errors, when the backoff delays are durations
    that [time.sleep] takes (not negative, and accepted by the conversions
    of line 83) and the last error is a truthy object, [with_retry] invokes
    the operation exactly [n + 1] times and then raises the error of the
    last of these calls. *)
Theorem with_retry_always_failing op config w (n : Z) :
  max_retries config = n ->
  0 <= n ->
  should_retry config = None ->
  0 <= delay_ms config ->
  delays_accepted sleep_overflow config 0 (Z.to_nat n) ->
  (forall i, exists error,
      nth_call op w i = Raise error /\
      has_non_retryable_code error = false) ->
  (forall last,
      nth_call op w (Z.to_nat n) = Raise last -> exc_truthy last = true) ->
  exists last,
    nth_call op w (Z.to_nat n) = Raise last /\
    result (with_retry sleep_overflow op (Some config) w) = Raise last /\
    invocations (trace (with_retry sleep_overflow op (Some config) w)) =
    Z.to_nat (n + 1) /\
    final_state (with_retry sleep_overflow op (Some config) w) =
    state_before op w (Z.to_nat (n + 1)).
Proof.
  intros Hn Hpos Hpred Hd Hfit Hall Htruthy. subst n.
  assert (Hfail : forall i, fails_retryably op config w i).
  { intros i. destruct (Hall i) as [error [Hcall Hcode]].
    exists error. split; [assumption|].
    unfold retryable, rejected_by_predicate. now rewrite Hpred, Hcode. }
  remember (Z.to_nat (max_retries config)) as k eqn:Hk.
  destruct (Hfail k) as [last [Hcall Hret]].
  exists last. split; [assumption|].
  rewrite (with_retry_failures op config w k Hd Hfit)
    by (intros; auto; lia).
  replace (Z.to_nat (max_retries config + 1) - k)%nat with 1%nat by lia.
  cbn [seq map]. replace (Z.of_nat k) with (max_retries config) by lia.
  rewrite (retry_loop_last op config _ _ last) by assumption.
  rewrite (Htruthy last Hcall).
  unfold result, trace, final_state, emit. simpl.
  split; [reflexivity|]. split.
  - rewrite invocations_app, invocations_backoff_trace.
    change (invocations [Invoke]) with 1%nat. lia.
  - now replace (Z.to_nat (max_retries config + 1)) with (S k) by lia.
Qed.

(** C8, amended. For every operation that fails [k < max_retries] times
    with retryable errors and then succeeds, when the [k] backoff delays are
    durations that [time.sleep] takes (not negative, and accepted by the
    conversions of line 83), [with_retry] returns the success value and
    invokes the operation exactly [k + 1] times. *)
Theorem with_retry_eventual_success op config w (k : nat) (v : V) :
  Z.of_nat k < max_retries config ->
  0 <= delay_ms config ->
  delays_accepted sleep_overflow config 0 k ->
  (forall i, (i < k)%nat -> fails_retryably op config w i) ->
  nth_call op w k = Return v ->
  result (with_retry sleep_overflow op (Some config) w) = Return v /\
  invocations (trace (with_retry sleep_overflow op (Some config) w)) =
  (k + 1)%nat /\
  final_state (with_retry sleep_overflow op (Some config) w) =
  state_before op w (k + 1).
Proof.
  intros Hlt Hd Hfit Hfail Hok.
  rewrite (with_retry_failures op config w k Hd Hfit Hfail) by lia.
  replace (Z.to_nat (max_retries config + 1) - k)%nat
    with (S (Z.to_nat (max_retries config) - k)) by lia.
  cbn [seq map].
  rewrite (retry_loop_success op config _ _ _ _ v) by exact Hok.
  unfold result, trace, final_state, emit. simpl.
  split; [reflexivity|]. split.
  - rewrite invocations_app, invocations_backoff_trace. reflexivity.
  - now rewrite Nat.add_1_r.
Qed.

(** The same at the boundary: success on the last attempt allowed. *)
Lemma with_retry_success_on_last_attempt op config w (k : nat) (v : V) :
  Z.of_nat k = max_retries config ->
  0 <= delay_ms config ->
  delays_accepted sleep_overflow config 0 k ->
  (forall i, (i < k)%nat -> fails_retryably op config w i) ->
  nth_call op w k = Return v ->
  result (with_retry sleep_overflow op (Some config) w) = Return v /\
  invocations (trace (with_retry sleep_overflow op (Some config) w)) =
  (k + 1)%nat.
Proof.
  intros Heq Hd Hfit Hfail Hok.
  rewrite (with_retry_failures op config w k Hd Hfit Hfail) by lia.
  replace (Z.to_nat (max_retries config + 1) - k)%nat with 1%nat by lia.
  cbn [seq map].
  rewrite (retry_loop_success op config _ _ _ _ v) by exact Hok.
  unfold result, trace, emit. simpl.
  split; [reflexivity|].
  rewrite invocations_app, invocations_backoff_trace. reflexivity.
Qed.

(** C5, amended. When the attempts of index [0 .. k-1] fail with retryable
    errors and each has attempts remaining ([k <= max_retries]), and their
    backoff delays are durations that [time.sleep] takes (not negative, and
    accepted by the conversions of line 83), the run is: for each such
    attempt [i] the call, then a sleep of [delay_ms * 2^i] milliseconds
    under exponential backoff and of [delay_ms] milliseconds otherwise, and
    then the call of attempt [k]; when that call succeeds there is nothing
    more, so that two failures and a success make three calls and two
    sleeps, of [delay_ms] and [2 * delay_ms] under exponential backoff. *)
Theorem with_retry_backoff_delays op config w (k : nat) :
  Z.of_nat k <= max_retries config ->
  0 <= delay_ms config ->
  delays_accepted sleep_overflow config 0 k ->
  (forall i, (i < k)%nat -> fails_retryably op config w i) ->
  let failed_attempts :=
    flat_map
      (fun i =>
         [Invoke;
          Sleep (if exponential_backoff config
                 then delay_ms config * 2 ^ Z.of_nat i
                 else delay_ms config)])
      (seq 0 k) in
  (exists rest,
      trace (with_retry sleep_overflow op (Some config) w) =
      failed_attempts ++ Invoke :: rest) /\
  (forall v,
      nth_call op w k = Return v ->
      trace (with_retry sleep_overflow op (Some config) w) =
      failed_attempts ++ [Invoke]).
Proof.
  intros Hle Hd Hfit Hfail. simpl.
  rewrite (with_retry_failures op config w k Hd Hfit Hfail Hle).
  replace (Z.to_nat (max_retries config + 1) - k)%nat
    with (S (Z.to_nat (max_retries config) - k)) by lia.
  cbn [seq map]. rewrite trace_emit.
  change (flat_map _ (seq 0 k)) with (backoff_trace config 0 k).
  set (rest := map Z.of_nat _).
  set (last := last_error_after op w k None).
  set (wk := state_before op w k).
  split.
  - assert (Hhead : exists tl,
               trace (retry_loop sleep_overflow op config
                        (Z.of_nat k :: rest) last wk) =
               Invoke :: tl).
    { simpl. destruct (op wk) as [[v|error] w'].
      - now exists [].
      - destruct (rejected_by_predicate config error); [now exists []|].
        destruct (has_non_retryable_code error); [now exists []|].
        destruct (Z.of_nat k <? max_retries config).
        + destruct (time_sleep sleep_overflow
                      (delay_of config (Z.of_nat k)));
            [|now exists []].
          rewrite trace_emit. simpl. eauto.
        + rewrite trace_emit. simpl. eauto. }
    destruct Hhead as [tl Htl]. exists tl. now rewrite Htl.
  - intros v Hok.
    now rewrite (retry_loop_success op config _ _ _ _ v) by exact Hok.
Qed.

(** The delays slept after [k] such failures, as a list. *)
Lemma with_retry_sleeps_prefix op config w (k : nat) :
  Z.of_nat k <= max_retries config ->
  0 <= delay_ms config ->
  delays_accepted sleep_overflow config 0 k ->
  (forall i, (i < k)%nat -> fails_retryably op config w i) ->
  firstn k (sleeps (trace (with_retry sleep_overflow op (Some config) w))) =
  map (fun i => delay_of config (Z.of_nat i)) (seq 0 k).
Proof.
  intros Hle Hd Hfit Hfail.
  rewrite (with_retry_failures op config w k Hd Hfit Hfail Hle).
  rewrite trace_emit, sleeps_app, sleeps_backoff_trace.
  set (l := map _ (seq 0 k)).
  assert (Hlen : List.length l = k)
    by (unfold l; now rewrite length_map, length_seq).
  rewrite <- Hlen at 1. rewrite firstn_app, firstn_all, Nat.sub_diag.
  simpl. now rewrite app_nil_r.
Qed.

(** C6. When the first error the operation raises carries a non-retryable
    code (["23505"] or ["23503"]), whatever the [should_retry] predicate,
    [with_retry] raises that error at once: the operation is invoked
    exactly once and nothing is slept. *)
Theorem with_retry_non_retryable_code op config w error :
  0 <= max_retries config ->
  nth_call op w 0 = Raise error ->
  exc_code error = Some (VStr "23505") \/
  exc_code error = Some (VStr "23503") ->
  with_retry sleep_overflow op (Some config) w =
  (Raise error, snd (op w), [Invoke]) /\
  invocations (trace (with_retry sleep_overflow op (Some config) w)) = 1%nat.
Proof.
  intros Hpos Hcall Hcode.
  assert (Hrun : with_retry sleep_overflow op (Some config) w =
                 (Raise error, snd (op w), [Invoke])).
  { unfold with_retry. rewrite py_range_cons by assumption.
    apply retry_loop_reraise; [exact Hcall|].
    unfold retryable, has_non_retryable_code.
    destruct Hcode as [-> | ->]; simpl; apply andb_false_r. }
  split; [assumption|]. now rewrite Hrun.
Qed.

(** C7. When a [should_retry] predicate is supplied and is false on the
    first error the operation raises, [with_retry] raises that error at
    once: the operation is invoked exactly once and nothing is slept. *)
Theorem with_retry_predicate_rejects op config w p error :
  0 <= max_retries config ->
  should_retry config = Some p ->
  nth_call op w 0 = Raise error ->
  p error = false ->
  with_retry sleep_overflow op (Some config) w =
  (Raise error, snd (op w), [Invoke]) /\
  invocations (trace (with_retry sleep_overflow op (Some config) w)) = 1%nat /\
  sleeps (trace (with_retry sleep_overflow op (Some config) w)) = [].
Proof.
  intros Hpos Hpred Hcall Hp.
  assert (Hrun : with_retry sleep_overflow op (Some config) w =
                 (Raise error, snd (op w), [Invoke])).
  { unfold with_retry. rewrite py_range_cons by assumption.
    apply retry_loop_reraise; [exact Hcall|].
    unfold retryable, rejected_by_predicate. now rewrite Hpred, Hp. }
  split; [assumption|]. now rewrite Hrun.
Qed.

(** C10. For every [max_retries < 0], [with_retry] never invokes the
    operation and raises the generic [Exception("Operation failed after
    retries")], which is no error of the operation. *)
Theorem with_retry_negative_max_retries op config w :
  max_retries config < 0 ->
  with_retry sleep_overflow op (Some config) w =
  (Raise (Exception "Operation failed after retries"), w, []) /\
  invocations (trace (with_retry sleep_overflow op (Some config) w)) = 0%nat.
Proof.
  intros Hneg.
  assert (Hrun : with_retry sleep_overflow op (Some config) w =
                 (Raise (Exception "Operation failed after retries"),
                  w, [])).
  { unfold with_retry. now rewrite py_range_nonpos by lia. }
  split; [assumption|]. now rewrite Hrun.
Qed.

End RetryFacts.

(** * The pagination helper *)

Import Pagination.

Section PaginationFacts.

Implicit Types (q : query) (params : PaginationParams) (resp : response).

(** Python's [//] by a positive divisor is the ceiling when [limit - 1] is
    added first: the quotient is the least [n] with [total <= limit * n]. *)
Lemma ceiling_division_bounds (t limit : Z) :
  1 <= limit ->
  limit * ((t + limit - 1) / limit - 1) < t <= limit * ((t + limit - 1) / limit).
Proof.
  intros Hl.
  pose proof (Z.div_mod (t + limit - 1) limit ltac:(lia)) as Hdm.
  pose proof (Z.mod_pos_bound (t + limit - 1) limit ltac:(lia)) as Hb.
  lia.
Qed.

(** The calls [paginate] makes do not depend on what comes back from
    [execute]: one [range] with the bounds of the page, then [execute]
    when [range] returned. *)
Lemma paginate_calls q params :
  let offset := (params_page params - 1) * params_limit params in
  snd (paginate q params) =
  CallRange offset (offset + params_limit params - 1)
  :: match range q offset (offset + params_limit params - 1) with
     | Return _ => [CallExecute]
     | Raise _ => []
     end.
Proof.
  unfold paginate. simpl.
  destruct (range q _ _) as [req|e]; [|reflexivity].
  now destruct (execute req).
Qed.

(** What [paginate] returns once the collaborator has answered. *)
Lemma paginate_answered q params req resp :
  let offset := (params_page params - 1) * params_limit params in
  range q offset (offset + params_limit params - 1) = Return req ->
  execute req = Return resp ->
  paginate q params =
  (build_response resp (params_page params) (params_limit params),
   [CallRange offset (offset + params_limit params - 1); CallExecute]).
Proof.
  simpl. intros Hrange Hexec. unfold paginate.
  now rewrite Hrange, Hexec.
Qed.

Lemma build_response_total resp (pg lim t : Z) :
  lim <> 0 ->
  extract_total resp (extract_data resp) = Return (VInt t) ->
  build_response resp pg lim =
  Return (mkPaginatedResponse (extract_data resp) t pg lim
            ((t + lim - 1) / lim) (pg <? (t + lim - 1) / lim) (1 <? pg)).
Proof.
  intros Hl Ht. unfold build_response. rewrite Ht.
  unfold ceiling_division.
  destruct (lim =? 0) eqn:E; [apply Z.eqb_eq in E; contradiction|].
  reflexivity.
Qed.

(** C2. For every [total >= 0], [limit >= 1] and page, the
    [PaginatedResponse] that [paginate] returns has
    [total_pages = ceil(total / limit)] (the least [n] with
    [total <= limit * n]), [has_next] true iff [page < total_pages] and
    [has_prev] true iff [page > 1]; with [total = 0] it has
    [total_pages = 0], no next page for a page from 0 on and no previous
    page for page 1. *)
Theorem paginate_page_arithmetic q params req resp (t : Z) :
  let offset := (params_page params - 1) * params_limit params in
  0 <= t ->
  1 <= params_limit params ->
  range q offset (offset + params_limit params - 1) = Return req ->
  execute req = Return resp ->
  extract_total resp (extract_data resp) = Return (VInt t) ->
  exists r,
    fst (paginate q params) = Return r /\
    total r = t /\
    page r = params_page params /\
    limit r = params_limit params /\
    limit r * (total_pages r - 1) < total r <= limit r * total_pages r /\
    (has_next r = true <-> page r < total_pages r) /\
    (has_prev r = true <-> page r > 1) /\
    (t = 0 ->
     total_pages r = 0 /\
     (0 <= page r -> has_next r = false) /\
     (page r <= 1 -> has_prev r = false)).
Proof.
  simpl. intros Ht Hl Hrange Hexec Htotal.
  rewrite (paginate_answered q params req resp Hrange Hexec).
  rewrite (build_response_total resp _ _ t) by (assumption || lia).
  eexists. split; [reflexivity|]. simpl.
  pose proof (ceiling_division_bounds t (params_limit params) Hl) as Hc.
  set (tp := (t + params_limit params - 1) / params_limit params) in *.
  split; [reflexivity|]. split; [reflexivity|]. split; [reflexivity|].
  split; [exact Hc|].
  split; [apply Z.ltb_lt|].
  split; [rewrite Z.ltb_lt; lia|].
  intros H0. split; [nia|]. split; intros Hp; apply Z.ltb_ge; nia.
Qed.

(** C9. For every [page >= 1] and [limit >= 1], [paginate] computes
    [offset = (page - 1) * limit] and makes exactly one request to the
    collaborator: the inclusive row range [offset .. offset + limit - 1]
    (of [limit] rows, from a non-negative offset), executed once, and it
    takes the total row count from the answer. *)
Theorem paginate_range_request q params :
  let offset := (params_page params - 1) * params_limit params in
  let last := offset + params_limit params - 1 in
  1 <= params_page params ->
  1 <= params_limit params ->
  filter is_range_call (snd (paginate q params)) = [CallRange offset last] /\
  0 <= offset /\
  last - offset + 1 = params_limit params /\
  (forall req,
      range q offset last = Return req ->
      snd (paginate q params) = [CallRange offset last; CallExecute]) /\
  (forall req resp c,
      range q offset last = Return req ->
      execute req = Return resp ->
      attr_count resp = Some (VInt c) ->
      exists r, fst (paginate q params) = Return r /\ total r = c).
Proof.
  simpl. intros Hp Hl.
  rewrite paginate_calls. simpl.
  split; [|split; [|split; [|split]]].
  - now destruct (range q _ _).
  - nia.
  - lia.
  - intros req Hrange. now rewrite Hrange.
  - intros req resp c Hrange Hexec Hcount.
    rewrite (paginate_answered q params req resp Hrange Hexec).
    rewrite (build_response_total resp _ _ c) by
      (try lia; unfold extract_total; now rewrite Hcount).
    eexists. split; reflexivity.
Qed.

(** What comes out of [parse_pagination_params] is a valid request:
    [page >= 1] and [limit] within [1 .. 100]. *)
Lemma parse_pagination_params_clamped int search_params defaults params :
  parse_pagination_params int search_params defaults = Return params ->
  1 <= params_page params /\ 1 <= params_limit params <= 100.
Proof.
  unfold parse_pagination_params.
  destruct (int (get search_params "page" _)) as [pg|e]; [|discriminate].
  destruct (int (get search_params "limit" _)) as [lim|e]; [|discriminate].
  intros H. injection H as <-. simpl. lia.
Qed.

(** C3, amended. [paginate] checks nothing before it calls the
    collaborator: also with [limit <= 0] its first step is
    [query.range(offset, offset + limit - 1)].  Such a request is kept out
    upstream: [parse_pagination_params] never produces it. *)
Theorem paginate_calls_collaborator_unchecked q params :
  let offset := (params_page params - 1) * params_limit params in
  params_limit params <= 0 ->
  (exists rest,
      snd (paginate q params) =
      CallRange offset (offset + params_limit params - 1) :: rest) /\
  (forall int search_params defaults,
      parse_pagination_params int search_params defaults <> Return params).
Proof.
  simpl. intros Hl. split.
  - rewrite paginate_calls. eauto.
  - intros int search_params defaults H.
    apply parse_pagination_params_clamped in H. lia.
Qed.

(** With [limit = 0] the failure comes from the ceiling division, after
    the collaborator has answered. *)
Lemma paginate_limit_zero q params req resp (t : Z) :
  params_limit params = 0 ->
  range q 0 (-1) = Return req ->
  execute req = Return resp ->
  extract_total resp (extract_data resp) = Return (VInt t) ->
  paginate q params =
  (Raise (ZeroDivisionError "integer division or modulo by zero"),
   [CallRange 0 (-1); CallExecute]).
Proof.
  intros Hl Hrange Hexec Ht.
  unfold paginate. rewrite Hl.
  replace ((params_page params - 1) * 0) with 0 by lia. simpl.
  rewrite Hrange, Hexec. unfold build_response. now rewrite Ht.
Qed.

(** C4, amended. [paginate] does substitute values for missing
    attributes of the collaborator's answer: the empty list for an absent
    [data], the length of the rows for an absent [count]; with a limit
    other than 0 it then completes with a [PaginatedResponse] built from
    them. *)
Theorem paginate_substitutes_defaults q params req resp :
  let offset := (params_page params - 1) * params_limit params in
  params_limit params <> 0 ->
  range q offset (offset + params_limit params - 1) = Return req ->
  execute req = Return resp ->
  (attr_data resp = None ->
   forall c, attr_count resp = Some (VInt c) ->
     exists r, fst (paginate q params) = Return r /\
               data r = VList [] /\ total r = c) /\
  (attr_count resp = None ->
   forall items, attr_data resp = Some (VList items) ->
     exists r, fst (paginate q params) = Return r /\
               data r = VList items /\
               total r = Z.of_nat (List.length items)) /\
  (attr_data resp = None ->
   attr_count resp = None ->
   exists r, fst (paginate q params) = Return r /\
             data r = VList [] /\ total r = 0).
Proof.
  simpl. intros Hl Hrange Hexec.
  rewrite (paginate_answered q params req resp Hrange Hexec). simpl.
  split; [|split].
  - intros Hdata c Hcount.
    rewrite (build_response_total resp _ _ c Hl)
      by (unfold extract_total; now rewrite Hcount).
    eexists. split; [reflexivity|]. simpl.
    unfold extract_data. now rewrite Hdata.
  - intros Hcount items Hdata.
    rewrite (build_response_total resp _ _ (Z.of_nat (List.length items)) Hl)
      by (unfold extract_total, extract_data; now rewrite Hcount, Hdata).
    eexists. split; [reflexivity|]. simpl.
    unfold extract_data. now rewrite Hdata.
  - intros Hdata Hcount.
    rewrite (build_response_total resp _ _ 0 Hl)
      by (unfold extract_total, extract_data; now rewrite Hcount, Hdata).
    eexists. split; [reflexivity|]. simpl.
    unfold extract_data. now rewrite Hdata.
Qed.

End PaginationFacts.

(** * The claims on concrete runs *)

Import Scenarios.

(** The scenario of the specification: two failures, then success, with
    [max_retries=2, delay_ms=100, exponential_backoff=True]. *)
Example backoff_scenario :
  with_retry ns64_overflow (temporary_error 3) (Some backoff_100) 0%nat =
  (Return "success"%string, 3%nat,
   [Invoke; Sleep 100; Invoke; Sleep 200; Invoke]).
Proof. reflexivity. Qed.

Example backoff_scenario_counts :
  sleeps
    (trace (with_retry ns64_overflow (temporary_error 3) (Some backoff_100)
              0%nat))
  = [100; 200] /\
  invocations
    (trace (with_retry ns64_overflow (temporary_error 3) (Some backoff_100)
              0%nat))
  = 3%nat.
Proof. split; reflexivity. Qed.

(** The same operation under a constant delay. *)
Example constant_delay_scenario :
  with_retry ns64_overflow (temporary_error 3) (Some constant_100) 0%nat =
  (Return "success"%string, 3%nat,
   [Invoke; Sleep 100; Invoke; Sleep 100; Invoke]).
Proof. reflexivity. Qed.

(** [with_retry(operation)] with the default policy of three retries. *)
Example default_policy_run :
  with_retry ns64_overflow persistent_error None 0%nat =
  (Raise (Exception "Persistent error"), 4%nat,
   [Invoke; Sleep 1000; Invoke; Sleep 2000; Invoke; Sleep 4000; Invoke]).
Proof. reflexivity. Qed.

(** A negative delay is outside the policy: the first sleep raises. *)
Example negative_delay_run :
  with_retry ns64_overflow persistent_error (Some negative_delay) 0%nat =
  (Raise (ValueError "sleep length must be non-negative"), 1%nat, [Invoke]).
Proof. reflexivity. Qed.

(** The scenarios of the specification for the page arithmetic. *)
Example page_1_of_25 :
  fst (paginate posts_25 (mkPaginationParams 1 10)) =
  Return (mkPaginatedResponse (VList [post 1; post 2]) 25 1 10 3 true false).
Proof. reflexivity. Qed.

Example page_3_of_25 :
  fst (paginate posts_25 (mkPaginationParams 3 10)) =
  Return (mkPaginatedResponse (VList [post 1; post 2]) 25 3 10 3 false true).
Proof. reflexivity. Qed.

Example page_1_of_0 :
  fst (paginate no_posts (mkPaginationParams 1 10)) =
  Return (mkPaginatedResponse (VList []) 0 1 10 0 false false).
Proof. reflexivity. Qed.

(** A negative limit is not rejected at all. *)
Example negative_limit_run :
  paginate posts_25 (mkPaginationParams 1 (-5)) =
  (Return (mkPaginatedResponse (VList [post 1; post 2]) 25 1 (-5) (-4)
             false false),
   [CallRange 0 (-6); CallExecute]).
Proof. reflexivity. Qed.

(** The parser clamps what it is given. *)
Example parse_clamps :
  parse_pagination_params int_of_value
    [("page"%string, VInt 0); ("limit"%string, VInt 500)] None =
  Return (mkPaginationParams 1 100).
Proof. reflexivity. Qed.

(** ** Instances of the theorems *)

(** C1 as stated fails.  An operation that always raises a falsy exception,
    with [max_retries = 0]: line 87 raises the generic error in place of
    the error of the operation.  And with a delay of [10^13] ms and
    [max_retries = 2], the first sleep overflows: one call, not three. *)
Lemma with_retry_last_error_replaced :
  nth_call sends_empty_batch 0%nat 0 = Raise empty_batch /\
  with_retry ns64_overflow sends_empty_batch (Some single_attempt) 0%nat =
  (Raise (Exception "Operation failed after retries"), 1%nat, [Invoke]) /\
  Exception "Operation failed after retries" <> empty_batch /\
  with_retry ns64_overflow persistent_error (Some three_centuries) 0%nat =
  (Raise (OverflowError "timestamp too large to convert to C _PyTime_t"),
   1%nat, [Invoke]).
Proof.
  split; [reflexivity|]. split; [reflexivity|].
  split; [discriminate|reflexivity].
Qed.

Lemma with_retry_always_failing_witness :
  exists last,
    nth_call persistent_error 0%nat (Z.to_nat 2) = Raise last /\
    result (with_retry ns64_overflow persistent_error (Some two_retries)
              0%nat)
    = Raise last /\
    invocations
      (trace (with_retry ns64_overflow persistent_error (Some two_retries)
                0%nat))
    = Z.to_nat (2 + 1) /\
    final_state (with_retry ns64_overflow persistent_error (Some two_retries)
                   0%nat)
    = state_before persistent_error 0%nat (Z.to_nat (2 + 1)).
Proof.
  apply (with_retry_always_failing ns64_overflow persistent_error two_retries
           0%nat 2).
  - reflexivity.
  - lia.
  - reflexivity.
  - simpl. lia.
  - intros i Hi. destruct i as [|[|i]]; [reflexivity | reflexivity |].
    simpl in Hi. lia.
  - intros i. exists (Exception "Persistent error"). split; reflexivity.
  - intros last Hlast. injection Hlast as <-. reflexivity.
Defined.

(** C8 as stated fails.  One failure, then success, with
    [max_retries = 2] and a delay of [10^13] ms: the sleep after the
    failure overflows and [with_retry] raises after a single call. *)
Lemma with_retry_overflow_prevents_success :
  nth_call (temporary_error 2) 0%nat 0 = Raise (Exception "Temporary error") /\
  nth_call (temporary_error 2) 0%nat 1 = Return "success"%string /\
  1 < max_retries three_centuries /\
  with_retry ns64_overflow (temporary_error 2) (Some three_centuries) 0%nat =
  (Raise (OverflowError "timestamp too large to convert to C _PyTime_t"),
   1%nat, [Invoke]).
Proof.
  split; [reflexivity|]. split; [reflexivity|].
  split; [simpl; lia|reflexivity].
Qed.

Lemma with_retry_eventual_success_witness :
  result (with_retry ns64_overflow (temporary_error 3) (Some three_retries)
            0%nat)
  = Return "success"%string /\
  invocations
    (trace (with_retry ns64_overflow (temporary_error 3) (Some three_retries)
              0%nat))
  = (2 + 1)%nat /\
  final_state (with_retry ns64_overflow (temporary_error 3)
                 (Some three_retries) 0%nat)
  = state_before (temporary_error 3) 0%nat (2 + 1).
Proof.
  apply (with_retry_eventual_success ns64_overflow (temporary_error 3)
           three_retries 0%nat 2 "success"%string).
  - simpl. lia.
  - simpl. lia.
  - intros i Hi. destruct i as [|[|i]]; [reflexivity | reflexivity | lia].
  - intros i Hi. exists (Exception "Temporary error").
    destruct i as [|[|i]]; [split; reflexivity | split; reflexivity | lia].
  - reflexivity.
Defined.

(** C5 as stated fails.  With [max_retries = 2] and a delay of [10^13] ms,
    attempt 0 fails with attempts remaining, and yet nothing is slept and
    no further attempt is made: the sleep overflows. *)
Lemma with_retry_overflowing_delay_not_slept :
  fails_retryably persistent_error three_centuries 0%nat 0 /\
  0 < max_retries three_centuries /\
  with_retry ns64_overflow persistent_error (Some three_centuries) 0%nat =
  (Raise (OverflowError "timestamp too large to convert to C _PyTime_t"),
   1%nat, [Invoke]) /\
  sleeps
    (trace (with_retry ns64_overflow persistent_error (Some three_centuries)
              0%nat)) = [].
Proof.
  split; [exists (Exception "Persistent error"); split; reflexivity|].
  split; [simpl; lia|]. split; reflexivity.
Qed.

Lemma with_retry_backoff_delays_witness :
  (exists rest,
      trace (with_retry ns64_overflow (temporary_error 3) (Some backoff_100)
               0%nat) =
      [Invoke; Sleep 100; Invoke; Sleep 200] ++ Invoke :: rest) /\
  (forall v,
      nth_call (temporary_error 3) 0%nat 2 = Return v ->
      trace (with_retry ns64_overflow (temporary_error 3) (Some backoff_100)
               0%nat) =
      [Invoke; Sleep 100; Invoke; Sleep 200] ++ [Invoke]).
Proof.
  apply (with_retry_backoff_delays ns64_overflow (temporary_error 3)
           backoff_100 0%nat 2).
  - simpl. lia.
  - simpl. lia.
  - intros i Hi. destruct i as [|[|i]]; [reflexivity | reflexivity | lia].
  - intros i Hi. exists (Exception "Temporary error").
    destruct i as [|[|i]]; [split; reflexivity | split; reflexivity | lia].
Defined.

Lemma with_retry_non_retryable_code_witness :
  with_retry ns64_overflow conflicting_insert (Some always_retry) 0%nat =
  (Raise unique_violation, snd (conflicting_insert 0%nat), [Invoke]) /\
  invocations
    (trace (with_retry ns64_overflow conflicting_insert (Some always_retry)
              0%nat))
  = 1%nat.
Proof.
  apply (with_retry_non_retryable_code ns64_overflow conflicting_insert
           always_retry 0%nat unique_violation).
  - simpl. lia.
  - reflexivity.
  - left. reflexivity.
Defined.

Lemma with_retry_predicate_rejects_witness :
  with_retry ns64_overflow persistent_error (Some never_retry) 0%nat =
  (Raise (Exception "Persistent error"), snd (persistent_error 0%nat),
   [Invoke]) /\
  invocations
    (trace (with_retry ns64_overflow persistent_error (Some never_retry)
              0%nat))
  = 1%nat /\
  sleeps
    (trace (with_retry ns64_overflow persistent_error (Some never_retry)
              0%nat)) = [].
Proof.
  apply (with_retry_predicate_rejects ns64_overflow persistent_error
           never_retry 0%nat retry_nothing (Exception "Persistent error")).
  - simpl. lia.
  - reflexivity.
  - reflexivity.
  - reflexivity.
Defined.

Lemma with_retry_negative_max_retries_witness :
  with_retry ns64_overflow persistent_error (Some no_attempts) 0%nat =
  (Raise (Exception "Operation failed after retries"), 0%nat, []) /\
  invocations
    (trace (with_retry ns64_overflow persistent_error (Some no_attempts)
              0%nat))
  = 0%nat.
Proof.
  apply (with_retry_negative_max_retries ns64_overflow persistent_error
           no_attempts 0%nat).
  simpl. lia.
Defined.

Lemma paginate_page_arithmetic_witness :
  exists r,
    fst (paginate posts_25 (mkPaginationParams 1 10)) = Return r /\
    total r = 25 /\
    page r = 1 /\
    limit r = 10 /\
    limit r * (total_pages r - 1) < total r <= limit r * total_pages r /\
    (has_next r = true <-> page r < total_pages r) /\
    (has_prev r = true <-> page r > 1) /\
    (25 = 0 ->
     total_pages r = 0 /\
     (0 <= page r -> has_next r = false) /\
     (page r <= 1 -> has_prev r = false)).
Proof.
  apply (paginate_page_arithmetic posts_25 (mkPaginationParams 1 10)
           (mkRequest
              (Return (mkResponse (Some (VList [post 1; post 2]))
                         (Some (VInt 25)))))
           (mkResponse (Some (VList [post 1; post 2])) (Some (VInt 25))) 25).
  - lia.
  - simpl. lia.
  - reflexivity.
  - reflexivity.
  - reflexivity.
Defined.

Lemma paginate_range_request_witness :
  filter is_range_call (snd (paginate posts_25 (mkPaginationParams 3 10)))
  = [CallRange 20 29] /\
  0 <= 20 /\
  29 - 20 + 1 = 10 /\
  (forall req,
      range posts_25 20 29 = Return req ->
      snd (paginate posts_25 (mkPaginationParams 3 10)) =
      [CallRange 20 29; CallExecute]) /\
  (forall req resp c,
      range posts_25 20 29 = Return req ->
      execute req = Return resp ->
      attr_count resp = Some (VInt c) ->
      exists r,
        fst (paginate posts_25 (mkPaginationParams 3 10)) = Return r /\
        total r = c).
Proof.
  apply (paginate_range_request posts_25 (mkPaginationParams 3 10)).
  - simpl. lia.
  - simpl. lia.
Defined.

(** C3 as stated fails: with [limit = 0] the collaborator is called, with
    the range [0 .. -1], and only then does the division raise. *)
Lemma paginate_limit_zero_calls_collaborator :
  params_limit (mkPaginationParams 1 0) <= 0 /\
  paginate posts_25 (mkPaginationParams 1 0) =
  (Raise (ZeroDivisionError "integer division or modulo by zero"),
   [CallRange 0 (-1); CallExecute]) /\
  snd (paginate posts_25 (mkPaginationParams 1 0)) <> [].
Proof.
  split; [simpl; lia|]. split; [reflexivity|]. discriminate.
Qed.

Lemma paginate_calls_collaborator_unchecked_witness :
  (exists rest,
      snd (paginate posts_25 (mkPaginationParams 1 0)) =
      CallRange 0 (-1) :: rest) /\
  (forall int search_params defaults,
      parse_pagination_params int search_params defaults <>
      Return (mkPaginationParams 1 0)).
Proof.
  apply (paginate_calls_collaborator_unchecked posts_25
           (mkPaginationParams 1 0)).
  simpl. lia.
Defined.

(** C4 as stated fails: an answer with neither [data] nor [count] gives a
    completed result, built from the empty list and its length. *)
Lemma paginate_bare_response_completes :
  attr_data bare_response = None /\
  attr_count bare_response = None /\
  paginate bare_query (mkPaginationParams 1 10) =
  (Return (mkPaginatedResponse (VList []) 0 1 10 0 false false),
   [CallRange 0 9; CallExecute]).
Proof. repeat split. Qed.

Lemma paginate_substitutes_defaults_witness :
  (attr_data bare_response = None ->
   forall c, attr_count bare_response = Some (VInt c) ->
     exists r, fst (paginate bare_query (mkPaginationParams 1 10)) = Return r /\
               data r = VList [] /\ total r = c) /\
  (attr_count bare_response = None ->
   forall items, attr_data bare_response = Some (VList items) ->
     exists r, fst (paginate bare_query (mkPaginationParams 1 10)) = Return r /\
               data r = VList items /\
               total r = Z.of_nat (List.length items)) /\
  (attr_data bare_response = None ->
   attr_count bare_response = None ->
   exists r, fst (paginate bare_query (mkPaginationParams 1 10)) = Return r /\
             data r = VList [] /\ total r = 0).
Proof.
  apply (paginate_substitutes_defaults bare_query (mkPaginationParams 1 10)
           (mkRequest (Return bare_response)) bare_response).
  - simpl. lia.
  - reflexivity.
  - reflexivity.
Defined.

(** * Further properties of the retry executor *)

Section RetryInvariants.

Context {W V : Type}.
Variable sleep_overflow : Z -> option exception.
Implicit Types (op : @operation W V) (config : RetryConfig) (w : W).

Lemma backoff_trace_cons config (a k : nat) :
  backoff_trace config a (S k) =
  [Invoke; Sleep (delay_of config (Z.of_nat a))]
  ++ backoff_trace config (S a) k.
Proof. reflexivity. Qed.

Lemma time_sleep_raises (ms : Z) (e : exception) :
  time_sleep sleep_overflow ms = Raise e ->
  sleep_overflow ms = Some e \/
  (sleep_overflow ms = None /\ ms < 0 /\
   e = ValueError "sleep length must be non-negative").
Proof.
  unfold time_sleep. destruct (sleep_overflow ms) as [overflow|].
  - intros H. injection H as <-. now left.
  - destruct (ms <? 0) eqn:E; [|discriminate].
    intros H. injection H as <-. apply Z.ltb_lt in E. now right.
Qed.

(** The loop over the attempts [a .. a + len - 1], the last of which has
    index [max_retries]: some [k] attempts are slept after, and one more
    ends the loop.  When every sleep is one that [time.sleep] takes and the
    errors are truthy, the result is that of the last call. *)
Lemma retry_loop_shape op config (len : nat) :
  forall (a : nat) last w,
    Z.of_nat (a + S len) = max_retries config + 1 ->
    let r :=
      retry_loop sleep_overflow op config (map Z.of_nat (seq a (S len)))
        last w in
    exists k,
      (k <= len)%nat /\
      trace r = backoff_trace config a k ++ [Invoke] /\
      final_state r = state_before op w (S k) /\
      (0 <= delay_ms config ->
       delays_accepted sleep_overflow config a len ->
       (forall i error,
           nth_call op w i = Raise error -> exc_truthy error = true) ->
       result r = nth_call op w k).
Proof.
  induction len as [|len IH]; intros a last w Hlast; cbv zeta.
  - exists O. split; [lia|].
    cbn [seq map retry_loop]. unfold nth_call. cbn [state_before].
    destruct (op w) as [[v|error] w'] eqn:Hop; [now repeat split|].
    destruct (rejected_by_predicate config error); [now repeat split|].
    destruct (has_non_retryable_code error); [now repeat split|].
    replace (Z.of_nat a <? max_retries config) with false
      by (symmetry; apply Z.ltb_ge; lia).
    destruct (exc_truthy error) eqn:Htruthy; [now repeat split|].
    split; [reflexivity|]. split; [reflexivity|].
    intros _ _ Hall.
    assert (Hcall : nth_call op w 0 = Raise error)
      by (unfold nth_call; cbn [state_before]; now rewrite Hop).
    rewrite (Hall O error Hcall) in Htruthy. discriminate.
  - change (seq a (S (S len))) with (a :: seq (S a) (S len)).
    cbn [map retry_loop].
    destruct (op w) as [[v|error] w'] eqn:Hop.
    { exists O. split; [lia|]. unfold nth_call. cbn [state_before].
      rewrite Hop. now repeat split. }
    destruct (rejected_by_predicate config error).
    { exists O. split; [lia|]. unfold nth_call. cbn [state_before].
      rewrite Hop. now repeat split. }
    destruct (has_non_retryable_code error).
    { exists O. split; [lia|]. unfold nth_call. cbn [state_before].
      rewrite Hop. now repeat split. }
    replace (Z.of_nat a <? max_retries config) with true
      by (symmetry; apply Z.ltb_lt; lia).
    destruct (time_sleep sleep_overflow (delay_of config (Z.of_nat a)))
      as [[]|e] eqn:Hsleep.
    + destruct (IH (S a) (Some error) w' ltac:(lia))
        as [k [Hk [Htrace [Hstate Hresult]]]].
      exists (S k). split; [lia|].
      rewrite trace_emit, final_state_emit, result_emit.
      rewrite Htrace, Hstate.
      assert (Hw' : w' = snd (op w)) by now rewrite Hop.
      rewrite backoff_trace_cons, <- app_assoc.
      split; [reflexivity|]. split.
      * rewrite Hw'. now rewrite <- state_before_shift.
      * intros Hd Hfit Hall.
        apply delays_accepted_tail in Hfit as [_ Hfit].
        rewrite (Hresult Hd Hfit).
        -- rewrite Hw'. now rewrite <- nth_call_shift.
        -- intros i error' Hcall. apply (Hall (S i)).
           rewrite nth_call_shift. now rewrite <- Hw'.
    + exists O. split; [lia|]. unfold nth_call. cbn [state_before].
      rewrite Hop. split; [reflexivity|]. split; [reflexivity|].
      intros Hd Hfit Hall.
      apply delays_accepted_tail in Hfit as [Hfit0 _].
      rewrite (time_sleep_accepted sleep_overflow _ Hfit0
                 (delay_of_nonneg config a Hd)) in Hsleep.
      discriminate.
Qed.

(** X1. Whatever the operation does, a run with [max_retries >= 0] is:
    [k <= max_retries] attempts, each followed by its sleep, then one last
    attempt.  So the operation is invoked at least once and at most
    [max_retries + 1] times, and there is one sleep less than there are
    invocations. *)
Theorem with_retry_trace_shape op config w :
  0 <= max_retries config ->
  exists k,
    Z.of_nat k <= max_retries config /\
    trace (with_retry sleep_overflow op (Some config) w) =
    flat_map
      (fun i =>
         [Invoke;
          Sleep (if exponential_backoff config
                 then delay_ms config * 2 ^ Z.of_nat i
                 else delay_ms config)])
      (seq 0 k)
    ++ [Invoke] /\
    invocations (trace (with_retry sleep_overflow op (Some config) w)) = S k /\
    List.length (sleeps (trace (with_retry sleep_overflow op (Some config) w)))
    = k.
Proof.
  intros Hpos. unfold with_retry, py_range.
  replace (Z.to_nat (max_retries config + 1))
    with (S (Z.to_nat (max_retries config))) by lia.
  destruct (retry_loop_shape op config (Z.to_nat (max_retries config))
              O None w ltac:(lia)) as [k [Hk [Htrace _]]].
  exists k. split; [lia|]. rewrite Htrace.
  split; [reflexivity|]. split.
  - rewrite invocations_app, invocations_backoff_trace.
    change (invocations [Invoke]) with 1%nat. lia.
  - rewrite sleeps_app, sleeps_backoff_trace. simpl.
    now rewrite app_nil_r, length_map, length_seq.
Qed.

(** X2. With [max_retries >= 0], backoff delays that [time.sleep] takes
    (not negative, and accepted by the conversions of line 83) and an
    operation whose errors are truthy objects, [with_retry] returns or
    raises exactly what the last call of the operation returned or raised,
    and leaves the operation in the state after that call: no error is
    swallowed or replaced. *)
Theorem with_retry_result_is_last_call op config w :
  0 <= max_retries config ->
  0 <= delay_ms config ->
  delays_accepted sleep_overflow config 0 (Z.to_nat (max_retries config)) ->
  (forall i error, nth_call op w i = Raise error -> exc_truthy error = true) ->
  exists n,
    invocations (trace (with_retry sleep_overflow op (Some config) w)) = S n /\
    result (with_retry sleep_overflow op (Some config) w) = nth_call op w n /\
    final_state (with_retry sleep_overflow op (Some config) w) =
    state_before op w (S n).
Proof.
  intros Hpos Hd Hfit Htruthy. unfold with_retry, py_range.
  replace (Z.to_nat (max_retries config + 1))
    with (S (Z.to_nat (max_retries config))) by lia.
  destruct (retry_loop_shape op config (Z.to_nat (max_retries config))
              O None w ltac:(lia)) as [k [Hk [Htrace [Hstate Hresult]]]].
  exists k. rewrite Htrace, Hstate, (Hresult Hd Hfit Htruthy).
  split; [|now split].
  rewrite invocations_app, invocations_backoff_trace.
  change (invocations [Invoke]) with 1%nat. lia.
Qed.

Lemma total_sleep_backoff_exponential config (k a : nat) :
  exponential_backoff config = true ->
  total_sleep (backoff_trace config a k) =
  delay_ms config * (2 ^ Z.of_nat (a + k) - 2 ^ Z.of_nat a).
Proof.
  intros Hexp. unfold total_sleep. rewrite sleeps_backoff_trace.
  revert a. induction k as [|k IH]; intros a.
  - simpl. replace (a + 0)%nat with a by lia. lia.
  - cbn [seq map fold_right]. rewrite IH.
    unfold delay_of. rewrite Hexp.
    replace (Z.of_nat (S a + k)) with (Z.of_nat (a + S k)) by lia.
    replace (Z.of_nat (S a)) with (Z.of_nat a + 1) by lia.
    rewrite Z.pow_add_r by lia. lia.
Qed.

Lemma total_sleep_backoff_constant config (k a : nat) :
  exponential_backoff config = false ->
  total_sleep (backoff_trace config a k) = delay_ms config * Z.of_nat k.
Proof.
  intros Hexp. unfold total_sleep. rewrite sleeps_backoff_trace.
  revert a. induction k as [|k IH]; intros a.
  - simpl. lia.
  - cbn [seq map fold_right]. rewrite IH.
    unfold delay_of. rewrite Hexp. lia.
Qed.

(** X3. With [max_retries = n >= 0] and [delay_ms >= 0], a run never sleeps
    more than [delay_ms * (2^n - 1)] milliseconds in total under exponential
    backoff, nor more than [delay_ms * n] under a constant delay. *)
Theorem with_retry_total_sleep_bound op config w :
  0 <= max_retries config ->
  0 <= delay_ms config ->
  0 <= total_sleep (trace (with_retry sleep_overflow op (Some config) w)) <=
  if exponential_backoff config
  then delay_ms config * (2 ^ max_retries config - 1)
  else delay_ms config * max_retries config.
Proof.
  intros Hpos Hd. unfold with_retry, py_range.
  replace (Z.to_nat (max_retries config + 1))
    with (S (Z.to_nat (max_retries config))) by lia.
  destruct (retry_loop_shape op config (Z.to_nat (max_retries config))
              O None w ltac:(lia)) as [k [Hk [Htrace _]]].
  rewrite Htrace.
  assert (Hsplit : total_sleep (backoff_trace config 0 k ++ [Invoke]) =
                   total_sleep (backoff_trace config 0 k)).
  { unfold total_sleep. rewrite sleeps_app. simpl. now rewrite app_nil_r. }
  rewrite Hsplit.
  destruct (exponential_backoff config) eqn:Hexp.
  - rewrite (total_sleep_backoff_exponential config k 0 Hexp). simpl (0 + k)%nat.
    change (2 ^ Z.of_nat 0) with 1.
    assert (1 <= 2 ^ Z.of_nat k) by (apply Z.pow_le_mono_r with (b := 0); lia).
    assert (2 ^ Z.of_nat k <= 2 ^ max_retries config)
      by (apply Z.pow_le_mono_r; lia).
    nia.
  - rewrite (total_sleep_backoff_constant config k 0 Hexp). nia.
Qed.

(** X4. A negative [delay_ms] breaks the retrying: when the first call
    fails with a retryable error and there are attempts left, the sleep
    (of a delay that the conversions of line 83 accept) raises
    [ValueError], which is what [with_retry] raises after this one call;
    the error of the operation is lost. *)
Theorem with_retry_negative_delay op config w :
  1 <= max_retries config ->
  delay_ms config < 0 ->
  sleep_overflow (delay_ms config) = None ->
  fails_retryably op config w 0 ->
  with_retry sleep_overflow op (Some config) w =
  (Raise (ValueError "sleep length must be non-negative"), snd (op w),
   [Invoke]).
Proof.
  intros Hmax Hneg Hfit [error [Hcall Hret]].
  apply retryable_split in Hret as [Hrej Hcode].
  unfold with_retry. rewrite py_range_cons by lia.
  unfold nth_call in Hcall. simpl in Hcall.
  cbn [retry_loop]. destruct (op w) as [o w'] eqn:Hop. simpl in Hcall. subst o.
  rewrite Hrej, Hcode.
  replace (0 <? max_retries config) with true
    by (symmetry; apply Z.ltb_lt; lia).
  assert (Hdelay : delay_of config 0 = delay_ms config).
  { unfold delay_of. destruct (exponential_backoff config); [|reflexivity].
    change (2 ^ 0) with 1. lia. }
  rewrite Hdelay. unfold time_sleep. rewrite Hfit.
  apply Z.ltb_lt in Hneg. now rewrite Hneg.
Qed.

Lemma retry_loop_accepting_predicate op (m d : Z) (b : bool)
    (p : exception -> bool) :
  (forall error, p error = true) ->
  forall attempts last w,
    retry_loop sleep_overflow op (mkRetryConfig m d b (Some p)) attempts last w
    =
    retry_loop sleep_overflow op (mkRetryConfig m d b None) attempts last w.
Proof.
  intros Hp. induction attempts as [|attempt rest IH]; intros last w.
  - reflexivity.
  - cbn [retry_loop]. destruct (op w) as [[v|error] w']; [reflexivity|].
    unfold rejected_by_predicate. cbn [should_retry]. rewrite Hp.
    cbn [negb max_retries].
    destruct (has_non_retryable_code error); [reflexivity|].
    destruct (attempt <? m).
    + change (delay_of (mkRetryConfig m d b (Some p)) attempt)
        with (delay_of (mkRetryConfig m d b None) attempt).
      destruct (time_sleep _ _); [|reflexivity]. now rewrite IH.
    + now rewrite IH.
Qed.

(** X5. A [should_retry] predicate that accepts every error changes
    nothing: the run is that of the same policy without a predicate. *)
Theorem with_retry_accepting_predicate op (m d : Z) (b : bool)
    (p : exception -> bool) w :
  (forall error, p error = true) ->
  with_retry sleep_overflow op (Some (mkRetryConfig m d b (Some p))) w =
  with_retry sleep_overflow op (Some (mkRetryConfig m d b None)) w.
Proof.
  intros Hp. unfold with_retry. cbn [max_retries].
  now apply retry_loop_accepting_predicate.
Qed.

End RetryInvariants.

(** * Further properties of the pagination helpers *)

Section PaginationInvariants.

Implicit Types (q : query) (params : PaginationParams) (resp : response).

(** X6. When both [int(...)] conversions succeed, with [p] and [l],
    [parse_pagination_params] returns a request with [page >= 1] and
    [1 <= limit <= 100]: values in range are kept, a page below 1 becomes 1,
    a limit below 1 becomes 1 and a limit above 100 becomes 100. *)
Theorem parse_pagination_params_normalizes
    (int : value -> outcome Z) search_params defaults (p l : Z) :
  let d := match defaults with
           | None => mkPaginationParams 1 10
           | Some d => d
           end in
  int (get search_params "page" (VInt (params_page d))) = Return p ->
  int (get search_params "limit" (VInt (params_limit d))) = Return l ->
  exists params,
    parse_pagination_params int search_params defaults = Return params /\
    1 <= params_page params /\
    1 <= params_limit params <= 100 /\
    (1 <= p -> params_page params = p) /\
    (p < 1 -> params_page params = 1) /\
    (1 <= l <= 100 -> params_limit params = l) /\
    (l < 1 -> params_limit params = 1) /\
    (100 < l -> params_limit params = 100).
Proof.
  simpl. intros Hp Hl. unfold parse_pagination_params.
  rewrite Hp, Hl. eexists. split; [reflexivity|]. simpl.
  repeat split; lia.
Qed.

(** X7. Search parameters with neither ["page"] nor ["limit"] give the
    defaults, which are clamped like any other value; without defaults,
    page 1 with limit 10. *)
Theorem parse_pagination_params_defaults
    (int : value -> outcome Z) search_params defaults :
  (forall z, int (VInt z) = Return z) ->
  dict_get search_params "page" = None ->
  dict_get search_params "limit" = None ->
  parse_pagination_params int search_params defaults =
  Return
    match defaults with
    | None => mkPaginationParams 1 10
    | Some d =>
        mkPaginationParams (Z.max 1 (params_page d))
          (Z.max 1 (Z.min 100 (params_limit d)))
    end.
Proof.
  intros Hint Hpage Hlimit. unfold parse_pagination_params, get.
  unfold dict_get in Hpage, Hlimit.
  destruct (find (fun kv => String.eqb (fst kv) "page") search_params);
    [discriminate|].
  destruct (find (fun kv => String.eqb (fst kv) "limit") search_params);
    [discriminate|].
  rewrite !Hint. now destruct defaults.
Qed.

(** X8. A request that comes out of [parse_pagination_params] makes
    [paginate] ask for a range that starts at a non-negative offset and
    holds between 1 and 100 rows; and when the collaborator answers with an
    integer total, [paginate] returns: the division by the limit cannot
    fail. *)
Theorem paginate_after_parse
    (int : value -> outcome Z) search_params defaults q params :
  let offset := (params_page params - 1) * params_limit params in
  let last := offset + params_limit params - 1 in
  parse_pagination_params int search_params defaults = Return params ->
  filter is_range_call (snd (paginate q params)) = [CallRange offset last] /\
  0 <= offset /\
  1 <= last - offset + 1 <= 100 /\
  (forall req resp t,
      range q offset last = Return req ->
      execute req = Return resp ->
      extract_total resp (extract_data resp) = Return (VInt t) ->
      exists r,
        fst (paginate q params) = Return r /\
        total r = t /\
        page r = params_page params /\
        limit r = params_limit params).
Proof.
  simpl. intros Hparse.
  apply parse_pagination_params_clamped in Hparse as [Hp Hl].
  rewrite paginate_calls. simpl.
  split; [now destruct (range q _ _)|].
  split; [nia|]. split; [lia|].
  intros req resp t Hrange Hexec Htotal.
  rewrite (paginate_answered q params req resp Hrange Hexec).
  rewrite (build_response_total resp _ _ t) by (assumption || lia).
  eexists. now repeat split.
Qed.

(** X9. An error of the collaborator is raised by [paginate] as it is:
    the one of [range] without [execute] being called, the one of
    [execute] after both calls. *)
Theorem paginate_propagates_errors q params (e : exception) :
  let offset := (params_page params - 1) * params_limit params in
  let last := offset + params_limit params - 1 in
  range q offset last = Raise e \/
  (exists req, range q offset last = Return req /\ execute req = Raise e) ->
  fst (paginate q params) = Raise e /\
  (range q offset last = Raise e ->
   snd (paginate q params) = [CallRange offset last]) /\
  (range q offset last <> Raise e ->
   snd (paginate q params) = [CallRange offset last; CallExecute]).
Proof.
  simpl. intros [Hrange | [req [Hrange Hexec]]]; unfold paginate.
  - rewrite Hrange. simpl.
    split; [reflexivity|]. split; [reflexivity|]. congruence.
  - rewrite Hrange, Hexec. simpl.
    split; [reflexivity|]. split; [congruence|reflexivity].
Qed.

(** X10. When the answer has a [count] attribute that is not an integer
    ([None], as when no count was asked for), [paginate] raises [TypeError]
    after the collaborator was called, whatever the limit. *)
Theorem paginate_count_not_integer q params req resp :
  let offset := (params_page params - 1) * params_limit params in
  let last := offset + params_limit params - 1 in
  range q offset last = Return req ->
  execute req = Return resp ->
  attr_count resp = Some VNone ->
  paginate q params =
  (Raise (TypeError "unsupported operand type(s) for +"),
   [CallRange offset last; CallExecute]).
Proof.
  simpl. intros Hrange Hexec Hcount.
  rewrite (paginate_answered q params req resp Hrange Hexec).
  unfold build_response, extract_total. now rewrite Hcount.
Qed.

(** X11. For [limit >= 1], [has_next] is true exactly when the offset of
    the next page, [page * limit], is below the total: following
    [has_next] always leads to a page that has rows. *)
Theorem paginate_has_next_iff_rows_beyond q params req resp (t : Z) :
  let offset := (params_page params - 1) * params_limit params in
  1 <= params_limit params ->
  range q offset (offset + params_limit params - 1) = Return req ->
  execute req = Return resp ->
  extract_total resp (extract_data resp) = Return (VInt t) ->
  exists r,
    fst (paginate q params) = Return r /\
    (has_next r = true <-> params_page params * params_limit params < t).
Proof.
  simpl. intros Hl Hrange Hexec Htotal.
  rewrite (paginate_answered q params req resp Hrange Hexec).
  rewrite (build_response_total resp _ _ t) by (assumption || lia).
  eexists. split; [reflexivity|]. simpl.
  pose proof (ceiling_division_bounds t (params_limit params) Hl) as Hc.
  rewrite Z.ltb_lt.
  set (tp := (t + params_limit params - 1) / params_limit params) in *.
  split; intros H; nia.
Qed.

End PaginationInvariants.

(** * The error handler *)

Import ErrorHandler.

Section ErrorHandlerFacts.

Variable str : value -> string.

(** No key of the table of friendly messages is the empty string. *)
Lemma known_code_not_empty (c friendly : string) :
  dict_get SUPABASE_ERROR_CODES c = Some friendly -> c <> ""%string.
Proof. intros H ->. discriminate H. Qed.

(** A normalized code that the table knows selects the message of the
    table. *)
Lemma friendly_message_of_code (error : error_arg) (c friendly : string) :
  code (normalize_error str error) = VStr c ->
  dict_get SUPABASE_ERROR_CODES c = Some friendly ->
  get_user_friendly_message str error = Return (VStr friendly).
Proof.
  intros Hcode Hknown. unfold get_user_friendly_message. rewrite Hcode.
  pose proof (known_code_not_empty c friendly Hknown) as Hne.
  apply String.eqb_neq in Hne.
  unfold truthy. rewrite Hne. simpl. now rewrite Hknown.
Qed.

(** X12. When [is_error_code(error, c)] holds and [c] is one of the codes
    of [SUPABASE_ERROR_CODES], the user-friendly message of the error is
    the message of the table for [c], whatever message the error carries. *)
Theorem friendly_message_of_known_code (error : error_arg)
    (c friendly : string) :
  is_error_code str error c = true ->
  dict_get SUPABASE_ERROR_CODES c = Some friendly ->
  get_user_friendly_message str error = Return (VStr friendly).
Proof.
  unfold is_error_code. intros Hcode Hknown.
  apply friendly_message_of_code with (c := c); [|assumption].
  destruct (code (normalize_error str error)) as [|z|s|items|entries];
    try discriminate.
  apply String.eqb_eq in Hcode. now subst s.
Qed.

(** X13. An object without a [message] attribute loses its code: the
    normalized error has only the message [str(error)], so that
    [is_error_code] is false for every code and the user-friendly message
    is [str(error)], also when the object has a [code] attribute that the
    table knows. *)
Theorem object_without_message_loses_code
    (attrs : list (string * value)) (as_str : string) :
  dict_get attrs "message" = None ->
  normalize_error str (ErrObject attrs as_str) =
  mkNormalizedError (VStr as_str) VNone VNone VNone /\
  (forall c, is_error_code str (ErrObject attrs as_str) c = false) /\
  get_user_friendly_message str (ErrObject attrs as_str) =
  Return (VStr as_str).
Proof.
  intros Hmsg.
  assert (Hnorm : normalize_error str (ErrObject attrs as_str) =
                  mkNormalizedError (VStr as_str) VNone VNone VNone)
    by (unfold normalize_error; now rewrite Hmsg).
  split; [assumption|]. split.
  - intros c. unfold is_error_code. now rewrite Hnorm.
  - unfold get_user_friendly_message. now rewrite Hnorm.
Qed.

(** X14. For a dict error, the code is looked up under ["code"] and, when
    that is missing or falsy, under ["error_code"]: a code of the table
    found under either key gives the message of the table. *)
Theorem dict_error_code_fallback (d : list (string * value))
    (c friendly : string) :
  dict_get SUPABASE_ERROR_CODES c = Some friendly ->
  get_or_none d "code" = VStr c \/
  (truthy (get_or_none d "code") = false /\
   get_or_none d "error_code" = VStr c) ->
  is_error_code str (ErrDict d) c = true /\
  get_user_friendly_message str (ErrDict d) = Return (VStr friendly).
Proof.
  intros Hknown Hcode.
  pose proof (known_code_not_empty c friendly Hknown) as Hne.
  apply String.eqb_neq in Hne.
  assert (Hnorm : code (normalize_error str (ErrDict d)) = VStr c).
  { simpl. unfold py_or. destruct Hcode as [Hc | [Hfalsy Hc]].
    - rewrite Hc. simpl. now rewrite Hne.
    - now rewrite Hfalsy. }
  assert (His : is_error_code str (ErrDict d) c = true)
    by (unfold is_error_code; rewrite Hnorm; apply String.eqb_refl).
  split; [assumption|].
  now apply friendly_message_of_code with (c := c).
Qed.

End ErrorHandlerFacts.

(** * The query cache *)

Import Cache.

Section DictFacts.

Context {A : Type}.
Implicit Types (d : list (string * A)) (k : string).

Lemma dict_get_del_same d k : dict_get (dict_del d k) k = None.
Proof.
  unfold dict_get, dict_del. induction d as [|[k' v] d IH]; [reflexivity|].
  simpl. destruct (String.eqb k' k) eqn:E; simpl; [assumption|].
  now rewrite E.
Qed.

Lemma dict_get_del_other d k k' :
  k' <> k -> dict_get (dict_del d k) k' = dict_get d k'.
Proof.
  intros Hne. unfold dict_get, dict_del.
  induction d as [|[k0 v] d IH]; [reflexivity|].
  simpl. destruct (String.eqb k0 k) eqn:E; simpl.
  - apply String.eqb_eq in E. subst k0.
    apply not_eq_sym, String.eqb_neq in Hne. now rewrite Hne.
  - destruct (String.eqb k0 k'); [reflexivity|assumption].
Qed.

Lemma dict_get_set_same d k (v : A) : dict_get (dict_set d k v) k = Some v.
Proof. unfold dict_get, dict_set. simpl. now rewrite String.eqb_refl. Qed.

Lemma dict_get_set_other d k k' (v : A) :
  k' <> k -> dict_get (dict_set d k v) k' = dict_get d k'.
Proof.
  intros Hne. unfold dict_set.
  rewrite <- (dict_get_del_other d k k' Hne).
  unfold dict_get at 1. simpl.
  apply not_eq_sym, String.eqb_neq in Hne. now rewrite Hne.
Qed.

End DictFacts.

Section QueryCacheFacts.

Context {time : Type}.
Variable time_gt : time -> time -> bool.
Variable time_add : time -> Z -> time.

Implicit Types (self : QueryCache time) (key : string) (now : time).

(** A [get] of the key just [set], before the entry expires. *)
Lemma get_set_fresh self key (v : value) now now' :
  time_gt now' (time_add now (ttl_seconds self)) = false ->
  Cache.get time_gt (Cache.set time_add self key v now) key now' =
  (v, Cache.set time_add self key v now).
Proof.
  intros Hfresh. unfold Cache.get, Cache.set. cbn [cache ttl_seconds].
  rewrite dict_get_set_same. cbn [expires_at entry_value].
  now rewrite Hfresh.
Qed.

(** X15. A value that was [set] is what [get] returns for its key, at any
    reading of the clock that is not greater than the reading of the [set]
    plus the time-to-live; the [get] changes nothing, so that this holds
    for any number of such [get]s in a row. *)
Theorem get_after_set self key (v : value) now now' now'' :
  time_gt now' (time_add now (ttl_seconds self)) = false ->
  time_gt now'' (time_add now (ttl_seconds self)) = false ->
  Cache.get time_gt (Cache.set time_add self key v now) key now' =
  (v, Cache.set time_add self key v now) /\
  fst (Cache.get time_gt
         (snd (Cache.get time_gt (Cache.set time_add self key v now) key now'))
         key now'') = v.
Proof.
  intros Hfresh Hfresh'.
  rewrite (get_set_fresh self key v now now' Hfresh). cbn [snd].
  now rewrite (get_set_fresh self key v now now'' Hfresh').
Qed.

(** What [get] returns depends on the entry of the key only. *)
Lemma get_value_depends_on_entry self self' key key' now :
  dict_get (cache self') key' = dict_get (cache self) key ->
  fst (Cache.get time_gt self' key' now) = fst (Cache.get time_gt self key now).
Proof.
  intros Heq. unfold Cache.get. rewrite Heq.
  destruct (dict_get (cache self) key) as [e|]; [|reflexivity].
  now destruct (time_gt now (expires_at e)).
Qed.

(** X16. A [get] at a reading of the clock greater than the expiry of the
    entry returns [None] and removes the entry: every later [get] of the
    key returns [None], whatever the clock says, and the other keys are as
    they were. *)
Theorem get_expired self key (e : entry time) now :
  dict_get (cache self) key = Some e ->
  time_gt now (expires_at e) = true ->
  fst (Cache.get time_gt self key now) = VNone /\
  (forall now',
      Cache.get time_gt (snd (Cache.get time_gt self key now)) key now' =
      (VNone, snd (Cache.get time_gt self key now))) /\
  (forall key' now',
      key' <> key ->
      fst (Cache.get time_gt (snd (Cache.get time_gt self key now)) key' now')
      = fst (Cache.get time_gt self key' now')).
Proof.
  intros Hentry Hexpired.
  assert (Hget : Cache.get time_gt self key now =
                 (VNone,
                  mkQueryCache (dict_del (cache self) key) (ttl_seconds self)))
    by (unfold Cache.get; now rewrite Hentry, Hexpired).
  rewrite Hget. cbn [fst snd].
  split; [reflexivity|]. split.
  - intros now'. unfold Cache.get. cbn [cache].
    now rewrite dict_get_del_same.
  - intros key' now' Hne. apply get_value_depends_on_entry. cbn [cache].
    now apply dict_get_del_other.
Qed.

(** X17. [set] and [invalidate] of one key leave what [get] returns for
    every other key as it was. *)
Theorem other_keys_untouched self key key' (v : value) now now' :
  key' <> key ->
  fst (Cache.get time_gt (Cache.set time_add self key v now) key' now') =
  fst (Cache.get time_gt self key' now') /\
  fst (Cache.get time_gt (invalidate self key) key' now') =
  fst (Cache.get time_gt self key' now').
Proof.
  intros Hne. split; apply get_value_depends_on_entry.
  - unfold Cache.set. cbn [cache]. now apply dict_get_set_other.
  - unfold invalidate.
    destruct (dict_get (cache self) key); [|reflexivity].
    cbn [cache]. now apply dict_get_del_other.
Qed.

(** X18. After [invalidate(key)] or [clear()], [get(key)] returns [None]
    at any reading of the clock, and leaves the cache as it is. *)
Theorem get_after_invalidate_or_clear self key now :
  Cache.get time_gt (invalidate self key) key now =
  (VNone, invalidate self key) /\
  Cache.get time_gt (clear self) key now = (VNone, clear self).
Proof.
  split; [|reflexivity].
  unfold invalidate.
  destruct (dict_get (cache self) key) as [e|] eqn:Hentry.
  - unfold Cache.get. cbn [cache]. now rewrite dict_get_del_same.
  - unfold Cache.get. now rewrite Hentry.
Qed.

Section GetOrSet.

Context {W : Type}.
Implicit Types (operation : W -> outcome value * W) (w : W).

(** X19. When [get] finds a value other than [None], [get_or_set] returns
    it without calling the operation, and the cache is left as it is. *)
Theorem get_or_set_hit self key operation w now_get now_set (v : value) :
  Cache.get time_gt self key now_get = (v, self) ->
  v <> VNone ->
  get_or_set time_gt time_add self key operation w now_get now_set =
  mkRun (Return v) w self 0.
Proof.
  intros Hget Hv. unfold get_or_set. rewrite Hget.
  destruct v; [contradiction|reflexivity..].
Qed.

(** X20. When [get] finds nothing, [get_or_set] calls the operation once.
    If it returns, the result is returned and stored, so that a [get] not
    later than the time-to-live after the store finds it; if it raises, the
    error is raised and nothing is stored. *)
Theorem get_or_set_miss self key operation w now_get now_set :
  fst (Cache.get time_gt self key now_get) = VNone ->
  let self' := snd (Cache.get time_gt self key now_get) in
  let r := get_or_set time_gt time_add self key operation w now_get now_set in
  run_calls r = 1%nat /\
  run_state r = snd (operation w) /\
  (forall result,
      fst (operation w) = Return result ->
      run_outcome r = Return result /\
      run_cache r = Cache.set time_add self' key result now_set /\
      forall now',
        time_gt now' (time_add now_set (ttl_seconds self)) = false ->
        fst (Cache.get time_gt (run_cache r) key now') = result) /\
  (forall e,
      fst (operation w) = Raise e ->
      run_outcome r = Raise e /\ run_cache r = self').
Proof.
  intros Hmiss. simpl. unfold get_or_set.
  destruct (Cache.get time_gt self key now_get) as [cached self'] eqn:Hget.
  simpl in Hmiss. subst cached. cbn [snd].
  assert (Httl : ttl_seconds self' = ttl_seconds self).
  { unfold Cache.get in Hget.
    destruct (dict_get (cache self) key) as [e|].
    - destruct (time_gt now_get (expires_at e));
        inversion Hget; reflexivity.
    - inversion Hget; reflexivity. }
  destruct (operation w) as [[result|e] w']; cbn [fst snd run_calls run_state
    run_outcome run_cache].
  - split; [reflexivity|]. split; [reflexivity|]. split.
    + intros result' H. injection H as <-.
      split; [reflexivity|]. split; [reflexivity|].
      intros now' Hfresh. rewrite <- Httl in Hfresh.
      now rewrite (get_set_fresh self' key result now_set now' Hfresh).
    + intros e H. discriminate H.
  - split; [reflexivity|]. split; [reflexivity|]. split.
    + intros result H. discriminate H.
    + intros e' H. injection H as <-. now split.
Qed.

(** X21. A result [None] is stored but never served: after a
    [get_or_set] whose operation returned [None], the next [get_or_set] of
    the key calls its operation again, whatever the clock says. *)
Theorem get_or_set_none_is_recomputed self key operation operation' w w'
    now_get now_set now_get' now_set' :
  fst (Cache.get time_gt self key now_get) = VNone ->
  fst (operation w) = Return VNone ->
  let r := get_or_set time_gt time_add self key operation w now_get now_set in
  run_calls
    (get_or_set time_gt time_add (run_cache r) key operation' w'
       now_get' now_set') = 1%nat.
Proof.
  intros Hmiss Hnone. simpl. unfold get_or_set at 2.
  destruct (Cache.get time_gt self key now_get) as [cached self'].
  simpl in Hmiss. subst cached.
  destruct (operation w) as [o w1]. simpl in Hnone. subst o.
  cbn [run_cache]. unfold get_or_set.
  assert (Hagain :
            fst (Cache.get time_gt (Cache.set time_add self' key VNone now_set)
                   key now_get') = VNone).
  { unfold Cache.get, Cache.set. cbn [cache].
    rewrite dict_get_set_same. cbn [expires_at entry_value].
    now destruct (time_gt now_get' _). }
  destruct (Cache.get time_gt (Cache.set time_add self' key VNone now_set)
              key now_get') as [cached self''].
  simpl in Hagain. subst cached.
  now destruct (operation' w') as [[result|e] w2].
Qed.

End GetOrSet.

End QueryCacheFacts.

(** * The role check of the RLS helpers *)

Import RlsHelpers.

Section RlsHelpersFacts.

(** X22. [has_role(client, role)] is true exactly when
    [client.auth.get_user()] returns a response whose [user] has a dict
    [app_metadata] with [role] under ["role"]; it is false whenever
    [get_user] raises or returns nothing, or the user or the metadata is
    missing. *)
Theorem has_role_iff (c : client) (required_role : string) :
  has_role c required_role = true <->
  exists resp u metadata,
    get_user c = Return (Some resp) /\
    attr_user resp = Some (Some u) /\
    attr_app_metadata u = Some (VDict metadata) /\
    dict_get metadata "role" = Some (VStr required_role).
Proof.
  unfold has_role, get_current_user_role, authenticated_user. split.
  - destruct (get_user c) as [[resp|]|e] eqn:Hget; try discriminate.
    destruct (attr_user resp) as [[u|]|] eqn:Huser; try discriminate.
    destruct (attr_app_metadata u) as [[|z|s|items|metadata]|] eqn:Hmeta;
      try discriminate.
    destruct (truthy (VDict metadata)); [|discriminate].
    unfold get_or_none.
    destruct (dict_get metadata "role") as [[|z|role|items|entries]|] eqn:Hrole;
      try discriminate.
    intros Heq. apply String.eqb_eq in Heq. subst role.
    exists resp, u, metadata. now repeat split.
  - intros [resp [u [metadata [Hget [Huser [Hmeta Hrole]]]]]].
    rewrite Hget, Huser, Hmeta.
    assert (Htruthy : truthy (VDict metadata) = true)
      by (destruct metadata; [discriminate Hrole|reflexivity]).
    rewrite Htruthy. unfold get_or_none. rewrite Hrole.
    apply String.eqb_refl.
Qed.

End RlsHelpersFacts.

(** ** Instances of the further properties *)

Import MoreScenarios.

Lemma with_retry_trace_shape_witness :
  exists k,
    Z.of_nat k <= 2 /\
    trace (with_retry ns64_overflow persistent_error (Some two_retries) 0%nat)
    =
    flat_map (fun i => [Invoke; Sleep (10 * 2 ^ Z.of_nat i)]) (seq 0 k)
    ++ [Invoke] /\
    invocations
      (trace (with_retry ns64_overflow persistent_error (Some two_retries)
                0%nat))
    = S k /\
    List.length
      (sleeps
         (trace (with_retry ns64_overflow persistent_error (Some two_retries)
                   0%nat)))
    = k.
Proof.
  apply (with_retry_trace_shape ns64_overflow persistent_error two_retries
           0%nat).
  simpl. lia.
Defined.

Lemma with_retry_result_is_last_call_witness :
  exists n,
    invocations
      (trace (with_retry ns64_overflow (temporary_error 3)
                (Some three_retries) 0%nat)) = S n /\
    result (with_retry ns64_overflow (temporary_error 3) (Some three_retries)
              0%nat) =
    nth_call (temporary_error 3) 0%nat n /\
    final_state (with_retry ns64_overflow (temporary_error 3)
                   (Some three_retries) 0%nat) =
    state_before (temporary_error 3) 0%nat (S n).
Proof.
  apply (with_retry_result_is_last_call ns64_overflow (temporary_error 3)
           three_retries 0%nat).
  - simpl. lia.
  - simpl. lia.
  - intros i Hi.
    destruct i as [|[|[|i]]];
      [reflexivity | reflexivity | reflexivity | simpl in Hi; lia].
  - intros i error. unfold nth_call.
    generalize (state_before (temporary_error 3) 0%nat i). intros calls.
    unfold temporary_error. cbv zeta.
    destruct (S calls <? 3)%nat; simpl; intros Hcall; [|discriminate].
    injection Hcall as <-. reflexivity.
Defined.

Lemma with_retry_total_sleep_bound_witness :
  0 <= total_sleep
         (trace (with_retry ns64_overflow persistent_error (Some backoff_100)
                   0%nat))
  <= 100 * (2 ^ 2 - 1).
Proof.
  apply (with_retry_total_sleep_bound ns64_overflow persistent_error
           backoff_100 0%nat).
  - simpl. lia.
  - simpl. lia.
Defined.

Lemma with_retry_negative_delay_witness :
  with_retry ns64_overflow persistent_error (Some negative_delay) 0%nat =
  (Raise (ValueError "sleep length must be non-negative"),
   snd (persistent_error 0%nat), [Invoke]).
Proof.
  apply (with_retry_negative_delay ns64_overflow persistent_error
           negative_delay 0%nat).
  - simpl. lia.
  - simpl. lia.
  - reflexivity.
  - exists (Exception "Persistent error"). split; reflexivity.
Defined.

Lemma with_retry_accepting_predicate_witness :
  with_retry ns64_overflow persistent_error
    (Some (mkRetryConfig 3 10 true (Some retry_everything))) 0%nat =
  with_retry ns64_overflow persistent_error
    (Some (mkRetryConfig 3 10 true None)) 0%nat.
Proof.
  apply (with_retry_accepting_predicate ns64_overflow persistent_error 3 10
           true retry_everything 0%nat).
  intros error. reflexivity.
Defined.

Lemma parse_pagination_params_normalizes_witness :
  exists params,
    parse_pagination_params int_of_value wild_params None = Return params /\
    1 <= params_page params /\
    1 <= params_limit params <= 100 /\
    (1 <= 0 -> params_page params = 0) /\
    (0 < 1 -> params_page params = 1) /\
    (1 <= 500 <= 100 -> params_limit params = 500) /\
    (500 < 1 -> params_limit params = 1) /\
    (100 < 500 -> params_limit params = 100).
Proof.
  apply (parse_pagination_params_normalizes int_of_value wild_params None
           0 500).
  - reflexivity.
  - reflexivity.
Defined.

Lemma parse_pagination_params_defaults_witness :
  parse_pagination_params int_of_value []
    (Some (mkPaginationParams 0 1000)) =
  Return (mkPaginationParams (Z.max 1 0) (Z.max 1 (Z.min 100 1000))).
Proof.
  apply (parse_pagination_params_defaults int_of_value []
           (Some (mkPaginationParams 0 1000))).
  - intros z. reflexivity.
  - reflexivity.
  - reflexivity.
Defined.

Lemma paginate_after_parse_witness :
  filter is_range_call (snd (paginate posts_25 (mkPaginationParams 1 100)))
  = [CallRange 0 99] /\
  0 <= 0 /\
  1 <= 99 - 0 + 1 <= 100 /\
  (forall req resp t,
      range posts_25 0 99 = Return req ->
      execute req = Return resp ->
      extract_total resp (extract_data resp) = Return (VInt t) ->
      exists r,
        fst (paginate posts_25 (mkPaginationParams 1 100)) = Return r /\
        total r = t /\
        page r = 1 /\
        limit r = 100).
Proof.
  apply (paginate_after_parse int_of_value wild_params None posts_25
           (mkPaginationParams 1 100)).
  reflexivity.
Defined.

Lemma paginate_propagates_errors_witness :
  fst (paginate unreachable_query (mkPaginationParams 1 10)) =
  Raise (Exception "connection refused") /\
  (range unreachable_query 0 9 = Raise (Exception "connection refused") ->
   snd (paginate unreachable_query (mkPaginationParams 1 10)) =
   [CallRange 0 9]) /\
  (range unreachable_query 0 9 <> Raise (Exception "connection refused") ->
   snd (paginate unreachable_query (mkPaginationParams 1 10)) =
   [CallRange 0 9; CallExecute]).
Proof.
  apply (paginate_propagates_errors unreachable_query
           (mkPaginationParams 1 10) (Exception "connection refused")).
  left. reflexivity.
Defined.

Lemma paginate_count_not_integer_witness :
  paginate count_none_query (mkPaginationParams 1 10) =
  (Raise (TypeError "unsupported operand type(s) for +"),
   [CallRange 0 9; CallExecute]).
Proof.
  apply (paginate_count_not_integer count_none_query (mkPaginationParams 1 10)
           (mkRequest (Return (mkResponse (Some (VList [])) (Some VNone))))
           (mkResponse (Some (VList [])) (Some VNone))).
  - reflexivity.
  - reflexivity.
  - reflexivity.
Defined.

Lemma paginate_has_next_iff_rows_beyond_witness :
  exists r,
    fst (paginate posts_25 (mkPaginationParams 2 10)) = Return r /\
    (has_next r = true <-> 2 * 10 < 25).
Proof.
  apply (paginate_has_next_iff_rows_beyond posts_25 (mkPaginationParams 2 10)
           (mkRequest
              (Return (mkResponse (Some (VList [post 1; post 2]))
                         (Some (VInt 25)))))
           (mkResponse (Some (VList [post 1; post 2])) (Some (VInt 25))) 25).
  - simpl. lia.
  - reflexivity.
  - reflexivity.
  - reflexivity.
Defined.

Lemma friendly_message_of_known_code_witness :
  get_user_friendly_message show duplicate_key_dict =
  Return (VStr "Unique constraint violation").
Proof.
  apply (friendly_message_of_known_code show duplicate_key_dict "23505"
           "Unique constraint violation").
  - reflexivity.
  - reflexivity.
Defined.

Lemma object_without_message_loses_code_witness :
  normalize_error show bare_exception =
  mkNormalizedError (VStr "duplicate key value") VNone VNone VNone /\
  (forall c, is_error_code show bare_exception c = false) /\
  get_user_friendly_message show bare_exception =
  Return (VStr "duplicate key value").
Proof.
  apply (object_without_message_loses_code show
           [("code"%string, VStr "23505")] "duplicate key value").
  reflexivity.
Defined.

Lemma dict_error_code_fallback_witness :
  is_error_code show expired_jwt_dict "PGRST301" = true /\
  get_user_friendly_message show expired_jwt_dict =
  Return (VStr "JWT expired").
Proof.
  apply (dict_error_code_fallback show
           [("error_code"%string, VStr "PGRST301")] "PGRST301" "JWT expired").
  - reflexivity.
  - right. split; reflexivity.
Defined.

Lemma get_after_set_witness :
  Cache.get Z.gtb (Cache.set Z.add five_minutes "posts:all" (VInt 7) 1000)
    "posts:all" 1300 =
  (VInt 7, Cache.set Z.add five_minutes "posts:all" (VInt 7) 1000) /\
  fst (Cache.get Z.gtb
         (snd (Cache.get Z.gtb
                 (Cache.set Z.add five_minutes "posts:all" (VInt 7) 1000)
                 "posts:all" 1300)) "posts:all" 1200) = VInt 7.
Proof.
  apply (get_after_set Z.gtb Z.add five_minutes "posts:all" (VInt 7)
           1000 1300 1200).
  - reflexivity.
  - reflexivity.
Defined.

Lemma get_expired_witness :
  fst (Cache.get Z.gtb
         (Cache.set Z.add five_minutes "posts:all" (VInt 7) 1000)
         "posts:all" 1301) = VNone /\
  (forall now',
      Cache.get Z.gtb
        (snd (Cache.get Z.gtb
                (Cache.set Z.add five_minutes "posts:all" (VInt 7) 1000)
                "posts:all" 1301)) "posts:all" now' =
      (VNone,
       snd (Cache.get Z.gtb
              (Cache.set Z.add five_minutes "posts:all" (VInt 7) 1000)
              "posts:all" 1301))) /\
  (forall key' now',
      key' <> "posts:all"%string ->
      fst (Cache.get Z.gtb
             (snd (Cache.get Z.gtb
                     (Cache.set Z.add five_minutes "posts:all" (VInt 7) 1000)
                     "posts:all" 1301)) key' now') =
      fst (Cache.get Z.gtb
             (Cache.set Z.add five_minutes "posts:all" (VInt 7) 1000)
             key' now')).
Proof.
  apply (get_expired Z.gtb
           (Cache.set Z.add five_minutes "posts:all" (VInt 7) 1000)
           "posts:all" (mkEntry (VInt 7) 1300) 1301).
  - reflexivity.
  - reflexivity.
Defined.

Lemma other_keys_untouched_witness :
  fst (Cache.get Z.gtb
         (Cache.set Z.add
            (Cache.set Z.add five_minutes "users:all" (VInt 3) 1000)
            "posts:all" (VInt 7) 1100) "users:all" 1200) =
  fst (Cache.get Z.gtb
         (Cache.set Z.add five_minutes "users:all" (VInt 3) 1000)
         "users:all" 1200) /\
  fst (Cache.get Z.gtb
         (invalidate
            (Cache.set Z.add five_minutes "users:all" (VInt 3) 1000)
            "posts:all") "users:all" 1200) =
  fst (Cache.get Z.gtb
         (Cache.set Z.add five_minutes "users:all" (VInt 3) 1000)
         "users:all" 1200).
Proof.
  apply (other_keys_untouched Z.gtb Z.add
           (Cache.set Z.add five_minutes "users:all" (VInt 3) 1000)
           "posts:all" "users:all" (VInt 7) 1100 1200).
  discriminate.
Defined.

Lemma get_or_set_hit_witness :
  get_or_set Z.gtb Z.add
    (Cache.set Z.add five_minutes "posts:all" (VInt 7) 1000)
    "posts:all" fetch_posts 0%nat 1100 1100 =
  mkRun (Return (VInt 7)) 0%nat
    (Cache.set Z.add five_minutes "posts:all" (VInt 7) 1000) 0.
Proof.
  apply (get_or_set_hit Z.gtb Z.add
           (Cache.set Z.add five_minutes "posts:all" (VInt 7) 1000)
           "posts:all" fetch_posts 0%nat 1100 1100 (VInt 7)).
  - reflexivity.
  - discriminate.
Defined.

Lemma get_or_set_miss_witness :
  run_calls
    (get_or_set Z.gtb Z.add five_minutes "posts:all" fetch_posts 0%nat
       1000 1001) = 1%nat /\
  run_state
    (get_or_set Z.gtb Z.add five_minutes "posts:all" fetch_posts 0%nat
       1000 1001) = snd (fetch_posts 0%nat) /\
  (forall result,
      fst (fetch_posts 0%nat) = Return result ->
      run_outcome
        (get_or_set Z.gtb Z.add five_minutes "posts:all" fetch_posts 0%nat
           1000 1001) = Return result /\
      run_cache
        (get_or_set Z.gtb Z.add five_minutes "posts:all" fetch_posts 0%nat
           1000 1001) =
      Cache.set Z.add (snd (Cache.get Z.gtb five_minutes "posts:all" 1000))
        "posts:all" result 1001 /\
      forall now',
        Z.gtb now' (Z.add 1001 (ttl_seconds five_minutes)) = false ->
        fst (Cache.get Z.gtb
               (run_cache
                  (get_or_set Z.gtb Z.add five_minutes "posts:all"
                     fetch_posts 0%nat 1000 1001)) "posts:all" now') =
        result) /\
  (forall e,
      fst (fetch_posts 0%nat) = Raise e ->
      run_outcome
        (get_or_set Z.gtb Z.add five_minutes "posts:all" fetch_posts 0%nat
           1000 1001) = Raise e /\
      run_cache
        (get_or_set Z.gtb Z.add five_minutes "posts:all" fetch_posts 0%nat
           1000 1001) =
      snd (Cache.get Z.gtb five_minutes "posts:all" 1000)).
Proof.
  apply (get_or_set_miss Z.gtb Z.add five_minutes "posts:all" fetch_posts
           0%nat 1000 1001).
  reflexivity.
Defined.

Lemma get_or_set_none_is_recomputed_witness :
  run_calls
    (get_or_set Z.gtb Z.add
       (run_cache
          (get_or_set Z.gtb Z.add five_minutes "posts:all" fetch_nothing
             0%nat 1000 1001))
       "posts:all" fetch_posts 1%nat 1002 1003) = 1%nat.
Proof.
  apply (get_or_set_none_is_recomputed Z.gtb Z.add five_minutes "posts:all"
           fetch_nothing fetch_posts 0%nat 1%nat 1000 1001 1002 1003).
  - reflexivity.
  - reflexivity.
Defined.
